(** * Postfix SMTP server, SASL support interface (smtpd_sasl_glue.c)

    A shallow embedding of the authentication dialog of
    [src/postfix/src/smtpd/smtpd_sasl_glue.c]: the generic XSASL dialog
    ([smtpd_sasl_authenticate]), the password-server mechanisms LOGIN,
    PLAIN and CRAM-MD5 ([smtpd_pw_server_authenticate] and the three
    [do_auth_*] handlers), and the connection life cycle
    ([smtpd_sasl_initialize], [smtpd_sasl_connect], [smtpd_sasl_logout],
    [smtpd_sasl_disconnect]).

    C pointers that may be null are [option]s, the session structure is a
    record, and the effects of the code (replies written to the client,
    lines read from it, log messages, calls into the SASL plug-in and into
    the directory service, released resources) are threaded through a
    state-and-error monad whose state carries an event log. *)

From Stdlib Require Import ZArith List String Ascii Bool Lia DecimalString.
Import ListNotations.

Local Open Scope string_scope.
Local Open Scope Z_scope.

(* ------------------------------------------------------------------ *)
(** ** C strings *)

Module CStr.

Definition NUL : ascii := "000"%char.

(** The value of a character read through [unsigned char]. *)
Definition uchar (c : ascii) : Z := Z.of_N (N_of_ascii c).

(** [STR v]: the C string that starts a NUL-terminated buffer, that is
    the bytes of [v] in front of its first NUL ([vstring_str]). *)
Fixpoint STR (v : string) : string :=
  match v with
  | EmptyString => EmptyString
  | String c v' => if Ascii.eqb c NUL then EmptyString else String c (STR v')
  end.

Definition strlen (s : string) : nat := String.length (STR s).

Fixpoint drop (n : nat) (s : string) : string :=
  match n, s with
  | O, _ => s
  | S n', String _ s' => drop n' s'
  | S _, EmptyString => EmptyString
  end.

Fixpoint take (n : nat) (s : string) : string :=
  match n, s with
  | S n', String c s' => String c (take n' s')
  | _, _ => EmptyString
  end.

(** The C string found at offset [off] of a buffer holding the bytes [v]
    followed by the terminator [VSTRING_TERMINATE] wrote.  An offset
    behind the terminator points at bytes nobody wrote: [None]. *)
Definition cstr_at (v : string) (off : nat) : option string :=
  if (off <=? String.length v)%nat then Some (STR (drop off v)) else None.

Definition tolower (c : ascii) : ascii :=
  if (65 <=? uchar c) && (uchar c <=? 90)
  then ascii_of_N (N_of_ascii c + 32) else c.

(** The loop shared by [strcmp] and [strcasecmp]: compare byte by byte
    through [f], stop at the first difference or at a terminator. *)
Fixpoint compare_with (f : ascii -> ascii) (a b : string) : Z :=
  match a, b with
  | EmptyString, EmptyString => 0
  | EmptyString, String d _ => 0 - uchar (f d)
  | String c _, EmptyString => uchar (f c)
  | String c a', String d b' =>
      if uchar (f c) =? uchar (f d)
      then (if Ascii.eqb c NUL then 0 else compare_with f a' b')
      else uchar (f c) - uchar (f d)
  end.

Definition strcmp : string -> string -> Z := compare_with (fun c => c).
Definition strcasecmp : string -> string -> Z := compare_with tolower.

(** [strchr s ch]: offset of the first [ch] in the C string [s]. *)
Fixpoint strchr (s : string) (ch : ascii) : option nat :=
  match s with
  | EmptyString => if Ascii.eqb ch NUL then Some O else None
  | String c s' =>
      if Ascii.eqb c ch then Some O
      else if Ascii.eqb c NUL then None
      else option_map S (strchr s' ch)
  end.

(** [mystrdup] copies a C string. *)
Definition mystrdup (s : string) : string := STR s.

(** [vstring_strncpy (_, src, len)]: at most [len] bytes of the C string. *)
Definition vstring_strncpy (src : string) (len : nat) : string :=
  take len (STR src).

Fixpoint smap (f : ascii -> ascii) (s : string) : string :=
  match s with
  | EmptyString => EmptyString
  | String c s' => String (f c) (smap f s')
  end.

Definition lower : string -> string := smap tolower.

(** Equality of two C strings up to the case of ASCII letters. *)
Definition eq_nocase (a b : string) : Prop := lower (STR a) = lower (STR b).

Fixpoint string_forallb (p : ascii -> bool) (s : string) : bool :=
  match s with
  | EmptyString => true
  | String c s' => p c && string_forallb p s'
  end.

(** No NUL byte: the bytes are a C string as they stand. *)
Definition nul_free (s : string) : bool :=
  string_forallb (fun c => negb (Ascii.eqb c NUL)) s.

Definition no_space (s : string) : bool :=
  string_forallb (fun c => negb (Ascii.eqb c " ")) s.

(** Modelled from the spec: [printable] belongs to Postfix's utility
    library and is not under src/.  The spec says that non-printable
    bytes are replaced by a placeholder; the printable bytes are the
    ASCII ones that [isprint] accepts in the C locale, 0x20 to 0x7e. *)
Definition isprint (c : ascii) : bool := (32 <=? uchar c) && (uchar c <=? 126).

Fixpoint printable (s : string) (replacement : ascii) : string :=
  match s with
  | EmptyString => EmptyString
  | String c s' =>
      if Ascii.eqb c NUL then s
      else String (if isprint c then c else replacement) (printable s' replacement)
  end.

End CStr.
Import CStr.

(* ------------------------------------------------------------------ *)
(** ** Collaborators *)

(** Modelled from the spec: the status codes of xsasl.h, which is not
    under src/.  The spec gives a step of the plug-in three results: more
    data needed, done, failed; the dialog only tells MORE and DONE from
    everything else. *)
Inductive xsasl_status := XSASL_AUTH_MORE | XSASL_AUTH_DONE | XSASL_AUTH_FAIL.

(** The result codes the directory-service helpers return, by the names
    the file uses for them. *)
Inductive eAOD :=
| eAOD_no_error | eAOD_param_error | eAOD_open_OD_failed | eAOD_unknown_user
| eAOD_auth_failed | eAOD_passwd_mismatch | eAOD_system_error.

Definition eAOD_eqb (a b : eAOD) : bool :=
  match a, b with
  | eAOD_no_error, eAOD_no_error | eAOD_param_error, eAOD_param_error
  | eAOD_open_OD_failed, eAOD_open_OD_failed | eAOD_unknown_user, eAOD_unknown_user
  | eAOD_auth_failed, eAOD_auth_failed | eAOD_passwd_mismatch, eAOD_passwd_mismatch
  | eAOD_system_error, eAOD_system_error => true
  | _, _ => false
  end.

(** A [CFErrorRef] as [print_cf_error] sees it: the null pointer, an error
    without a failure reason, or an error with the failure reason that
    [CFStringGetCString] leaves in the local buffer. *)
Definition CFErrorRef : Type := option (option string).

(** Everything the file calls and does not define: the XSASL plug-in, the
    base64 codec and [name_mask] of the utility library, the configuration
    parameters, the operating system and Open Directory. *)
Class Collaborators := {
  (* XSASL plug-in; a server context carries the plug-in's own state *)
  XSASL_SERVER_IMPL : Type;
  XSASL_SERVER : Type;
  xsasl_server_init : string -> string -> option XSASL_SERVER_IMPL;
  xsasl_server_create :
    XSASL_SERVER_IMPL -> string -> string -> option string -> string -> option XSASL_SERVER;
  xsasl_server_get_mechanism_list : XSASL_SERVER -> option string;
  xsasl_server_first :
    XSASL_SERVER -> string -> option string -> xsasl_status * string * XSASL_SERVER;
  xsasl_server_next :
    XSASL_SERVER -> string -> xsasl_status * string * XSASL_SERVER;
  xsasl_server_get_username : XSASL_SERVER -> option string;
  (* utility library *)
  base64_encode : string -> string;
  base64_decode : string -> option string;
  name_mask : string -> list (string * Z) -> string -> option Z;
  (* configuration *)
  var_smtpd_sasl_type : string;
  var_smtpd_sasl_path : string;
  var_smtpd_sasl_realm : string;
  var_smtpd_pw_server_opts : string;
  PW_SERVER_NONE : Z;
  PW_SERVER_LOGIN : Z;
  PW_SERVER_PLAIN : Z;
  PW_SERVER_CRAM_MD5 : Z;
  PW_SERVER_GSSAPI : Z;
  (* operating system *)
  getpid : N;
  time0 : N;
  gethostname : string;
  urandom_chars : string;
  (* Open Directory and CoreFoundation *)
  ODRecordRef : Type;
  ODSessionCreate : bool;
  CFStringCreateWithCString : string -> bool;
  ODNodeCopyRecord : string -> option ODRecordRef;
  ODRecordVerifyPassword : ODRecordRef -> string -> bool;
  ODRecordVerifyPasswordExtended : ODRecordRef -> list string -> bool;
  kDSStdAuthCRAM_MD5 : string;
  VAR_SMTPD_PW_SERVER_OPTS : string;
  (* the CFError a failed call leaves behind, see [CFErrorRef] *)
  ODSessionCreate_error : CFErrorRef;
  ODNodeCopyRecord_error : string -> CFErrorRef;
  ODRecordVerifyPassword_error : ODRecordRef -> string -> CFErrorRef;
  (* what a caller reads as the value of a call that ended in a [return;]
     without a value; the callers only compare it with eAOD_no_error *)
  indeterminate_int : eAOD;
  (* the bytes that lie behind the terminator of a freshly allocated
     buffer which holds the given data *)
  uninitialized : string -> string
}.

(* ------------------------------------------------------------------ *)
(** ** Events, outcomes and operations *)

(** What [smtpd_sasl_disconnect] and [smtpd_sasl_logout] can release. *)
Inductive resource :=
| R_sasl_reply | R_sasl_mechanism_list | R_sasl_username
| R_sasl_method | R_sasl_sender | R_sasl_server.

Definition resource_eqb (a b : resource) : bool :=
  match a, b with
  | R_sasl_reply, R_sasl_reply | R_sasl_mechanism_list, R_sasl_mechanism_list
  | R_sasl_username, R_sasl_username | R_sasl_method, R_sasl_method
  | R_sasl_sender, R_sasl_sender | R_sasl_server, R_sasl_server => true
  | _, _ => false
  end.

Inductive event :=
| Ev_chat_reply (text : string)            (* smtpd_chat_reply *)
| Ev_chat_query (line : string)            (* smtpd_chat_query *)
| Ev_msg_warn (text : string)
| Ev_msg_error (text : string)
| Ev_xsasl_first (method : string) (init_response : option string)
| Ev_xsasl_next (response : string)
| Ev_xsasl_get_username
| Ev_od_clear_text_auth (user passwd : string)
| Ev_od_validate_response (user chal resp auth_type : string)
| Ev_free (r : resource).                  (* myfree, vstring_free, xsasl_server_free *)

(** Events on the connection to the client, and calls into the plug-in
    or the directory. *)
Definition is_transport (e : event) : bool :=
  match e with
  | Ev_chat_reply _ | Ev_chat_query _ => true
  | _ => false
  end.

Definition is_backend (e : event) : bool :=
  match e with
  | Ev_xsasl_first _ _ | Ev_xsasl_next _ | Ev_xsasl_get_username
  | Ev_od_clear_text_auth _ _ | Ev_od_validate_response _ _ _ _ => true
  | _ => false
  end.

(** Entries of the log file. *)
Definition is_log (e : event) : bool :=
  match e with
  | Ev_msg_warn _ | Ev_msg_error _ => true
  | _ => false
  end.

(** How often [evs] releases the resource [r]. *)
Definition frees (r : resource) (evs : list event) : nat :=
  List.length (filter (fun e => match e with
                                | Ev_free r' => resource_eqb r r'
                                | _ => false
                                end) evs).

(** Ways in which a routine does not return to its caller: [msg_panic],
    [msg_fatal], the non-local exit of [smtpd_chat_query] when the client
    is gone, and behaviour C leaves undefined. *)
Inductive abend :=
| Panic (msg : string)
| Fatal (msg : string)
| Eof
| Undef.

Inductive outcome (A : Type) :=
| Ret (a : A)
| Abend (e : abend).
Arguments Ret {A} a.
Arguments Abend {A} e.

(** The process ends: what the spec calls ConfigurationFatal. *)
Definition ConfigurationFatal {A} (o : outcome A) : Prop :=
  exists msg, o = Abend (Panic msg) \/ o = Abend (Fatal msg).

(** How the [for] loop of [smtpd_sasl_authenticate] is left: by its
    [return (-1)], or because the status is no longer MORE. *)
Inductive loop_exit :=
| Returned (v : Z)
| Fell_out (status : xsasl_status).

(** The entry points a session is made of. *)
Inductive operation :=
| Op_connect (sasl_opts_name sasl_opts_val : string)
| Op_authenticate (sasl_method : string) (init_response : option string)
| Op_pw_server_authenticate (in_method : string) (in_resp : option string)
| Op_logout
| Op_disconnect.

(* ------------------------------------------------------------------ *)
(** ** The session, the process and the event log *)

Section Glue.

Context {C : Collaborators}.

(** The SASL members of [SMTPD_STATE], with the members of the session the
    dialog reads: the line buffer and the client's name and address. *)
Record SMTPD_STATE := mkState {
  buffer : string;
  namaddr : string;
  client : string;
  sasl_reply : option string;
  sasl_mechanism_list : option string;
  sasl_username : option string;
  sasl_method : option string;
  sasl_sender : option string;
  sasl_server : option XSASL_SERVER
}.

(** The session, the process-wide variables of the file, the lines the
    client still has to send, and what happened so far. *)
Record world := mkWorld {
  state : SMTPD_STATE;
  smtpd_sasl_impl : option XSASL_SERVER_IMPL;
  smtpd_pw_server_sasl_opts : Z;
  input : list string;
  trace : list event
}.

Definition M (A : Type) : Type := world -> outcome A * world.

Definition ret {A} (a : A) : M A := fun w => (Ret a, w).

Definition bind {A B} (m : M A) (k : A -> M B) : M B :=
  fun w => match m w with
           | (Ret a, w') => k a w'
           | (Abend e, w') => (Abend e, w')
           end.

Definition raise {A} (e : abend) : M A := fun w => (Abend e, w).

Notation "x <- m ;; k" := (bind m (fun x => k))
  (at level 61, m at next level, right associativity).
Notation "m ;; k" := (bind m (fun _ => k))
  (at level 61, right associativity).

Definition emit (e : event) : M unit :=
  fun w => (Ret tt, mkWorld (state w) (smtpd_sasl_impl w)
                            (smtpd_pw_server_sasl_opts w) (input w) (trace w ++ [e])).

Definition get_state : M SMTPD_STATE := fun w => (Ret (state w), w).

Definition put_state (s : SMTPD_STATE) : M unit :=
  fun w => (Ret tt, mkWorld s (smtpd_sasl_impl w)
                            (smtpd_pw_server_sasl_opts w) (input w) (trace w)).

Definition set_buffer (l : string) (s : SMTPD_STATE) : SMTPD_STATE :=
  mkState l (namaddr s) (client s) (sasl_reply s) (sasl_mechanism_list s)
          (sasl_username s) (sasl_method s) (sasl_sender s) (sasl_server s).

Definition set_sasl_reply (r : option string) (s : SMTPD_STATE) : SMTPD_STATE :=
  mkState (buffer s) (namaddr s) (client s) r (sasl_mechanism_list s)
          (sasl_username s) (sasl_method s) (sasl_sender s) (sasl_server s).

Definition set_sasl_mechanism_list (l : option string) (s : SMTPD_STATE) : SMTPD_STATE :=
  mkState (buffer s) (namaddr s) (client s) (sasl_reply s) l
          (sasl_username s) (sasl_method s) (sasl_sender s) (sasl_server s).

Definition set_sasl_username (u : option string) (s : SMTPD_STATE) : SMTPD_STATE :=
  mkState (buffer s) (namaddr s) (client s) (sasl_reply s) (sasl_mechanism_list s)
          u (sasl_method s) (sasl_sender s) (sasl_server s).

Definition set_sasl_method (m : option string) (s : SMTPD_STATE) : SMTPD_STATE :=
  mkState (buffer s) (namaddr s) (client s) (sasl_reply s) (sasl_mechanism_list s)
          (sasl_username s) m (sasl_sender s) (sasl_server s).

Definition set_sasl_sender (x : option string) (s : SMTPD_STATE) : SMTPD_STATE :=
  mkState (buffer s) (namaddr s) (client s) (sasl_reply s) (sasl_mechanism_list s)
          (sasl_username s) (sasl_method s) x (sasl_server s).

Definition set_sasl_server (x : option XSASL_SERVER) (s : SMTPD_STATE) : SMTPD_STATE :=
  mkState (buffer s) (namaddr s) (client s) (sasl_reply s) (sasl_mechanism_list s)
          (sasl_username s) (sasl_method s) (sasl_sender s) x.

Definition modify (f : SMTPD_STATE -> SMTPD_STATE) : M unit :=
  fun w => (Ret tt, mkWorld (f (state w)) (smtpd_sasl_impl w)
                            (smtpd_pw_server_sasl_opts w) (input w) (trace w)).

(** *** Logging and the transport *)

Definition msg_warn (text : string) : M unit := emit (Ev_msg_warn text).
Definition msg_error (text : string) : M unit := emit (Ev_msg_error text).
Definition msg_panic {A} (text : string) : M A := raise (Panic text).
Definition msg_fatal {A} (text : string) : M A := raise (Fatal text).

Definition smtpd_chat_reply (text : string) : M unit := emit (Ev_chat_reply text).

(** One line arrives: it replaces the line buffer. *)
Definition deliver (l : string) (rest : list string) : M unit :=
  fun w => (Ret tt, mkWorld (set_buffer l (state w)) (smtpd_sasl_impl w)
                            (smtpd_pw_server_sasl_opts w) rest
                            (trace w ++ [Ev_chat_query l])).

(** [smtpd_chat_query] blocks for the next line; when none comes (time-out,
    lost connection) it leaves by a non-local jump and never returns. *)
Definition smtpd_chat_query : M unit :=
  fun w => match input w with
           | [] => (Abend Eof, w)
           | l :: rest => deliver l rest w
           end.

Definition get_input : M (list string) := fun w => (Ret (input w), w).
Definition get_impl : M (option XSASL_SERVER_IMPL) := fun w => (Ret (smtpd_sasl_impl w), w).
Definition get_opts : M Z := fun w => (Ret (smtpd_pw_server_sasl_opts w), w).

Definition set_impl (i : option XSASL_SERVER_IMPL) : M unit :=
  fun w => (Ret tt, mkWorld (state w) i (smtpd_pw_server_sasl_opts w) (input w) (trace w)).

Definition set_opts (m : Z) : M unit :=
  fun w => (Ret tt, mkWorld (state w) (smtpd_sasl_impl w) m (input w) (trace w)).

(* ------------------------------------------------------------------ *)
(** ** The generic XSASL path *)

(** The table [smtpd_pw_server_mask]. *)
Definition smtpd_pw_server_mask : list (string * Z) :=
  [ ("none", PW_SERVER_NONE); ("login", PW_SERVER_LOGIN); ("plain", PW_SERVER_PLAIN);
    ("cram-md5", PW_SERVER_CRAM_MD5); ("gssapi", PW_SERVER_GSSAPI) ].

(** smtpd_sasl_initialize - per-process initialization.  [name_mask] ends
    the process itself on a name it does not know. *)
Definition smtpd_sasl_initialize (in_use_pw_server : Z) : M unit :=
  (if in_use_pw_server =? 0 then ret tt
   else match name_mask VAR_SMTPD_PW_SERVER_OPTS smtpd_pw_server_mask
                        var_smtpd_pw_server_opts with
        | Some m => set_opts m
        | None => msg_fatal "unknown smtpd_pw_server_security_options value"
        end) ;;
  impl <- get_impl ;;
  match impl with
  | Some _ => msg_panic "smtpd_sasl_initialize: repeated call"
  | None =>
      match xsasl_server_init var_smtpd_sasl_type var_smtpd_sasl_path with
      | None => set_impl None ;; msg_fatal "SASL per-process initialization failed"
      | Some i => set_impl (Some i)
      end
  end.

Definition SMTPD_SASL_SERVICE : string := "smtp".

(** smtpd_sasl_connect - per-connection initialization. *)
Definition smtpd_sasl_connect (sasl_opts_name sasl_opts_val : string) : M unit :=
  modify (set_sasl_reply (Some "")) ;;
  modify (set_sasl_mechanism_list None) ;;
  modify (set_sasl_username None) ;;
  modify (set_sasl_method None) ;;
  modify (set_sasl_sender None) ;;
  impl <- get_impl ;;
  s <- get_state ;;
  match impl with
  | None => raise Undef
  | Some i =>
      let server :=
        xsasl_server_create i (client s) SMTPD_SASL_SERVICE
          (match var_smtpd_sasl_realm with
           | EmptyString => None
           | _ => Some var_smtpd_sasl_realm
           end) sasl_opts_val in
      modify (set_sasl_server server) ;;
      match server with
      | None => msg_fatal "SASL per-connection initialization failed"
      | Some srv =>
          match xsasl_server_get_mechanism_list srv with
          | None => msg_fatal "no SASL authentication mechanisms"
          | Some mechanism_list =>
              modify (set_sasl_mechanism_list (Some (mystrdup mechanism_list)))
          end
      end
  end.

(** [if (state->member) { free (state->member); state->member = 0; }] *)
Definition release {A} (r : resource) (member : SMTPD_STATE -> option A)
    (clear : SMTPD_STATE -> SMTPD_STATE) : M unit :=
  s <- get_state ;;
  match member s with
  | Some _ => emit (Ev_free r) ;; modify clear
  | None => ret tt
  end.

(** smtpd_sasl_disconnect - per-connection cleanup. *)
Definition smtpd_sasl_disconnect : M unit :=
  release R_sasl_reply sasl_reply (set_sasl_reply None) ;;
  release R_sasl_mechanism_list sasl_mechanism_list (set_sasl_mechanism_list None) ;;
  release R_sasl_username sasl_username (set_sasl_username None) ;;
  release R_sasl_method sasl_method (set_sasl_method None) ;;
  release R_sasl_sender sasl_sender (set_sasl_sender None) ;;
  release R_sasl_server sasl_server (set_sasl_server None).

(** smtpd_sasl_logout - clean up after smtpd_sasl_authenticate. *)
Definition smtpd_sasl_logout : M unit :=
  release R_sasl_username sasl_username (set_sasl_username None) ;;
  release R_sasl_method sasl_method (set_sasl_method None).

(** One call into the plug-in: it advances the server context and leaves
    its answer in [state->sasl_reply].  Both pointers must be there. *)
Definition xsasl_step (f : XSASL_SERVER -> xsasl_status * string * XSASL_SERVER)
  : M xsasl_status :=
  s <- get_state ;;
  match sasl_server s, sasl_reply s with
  | Some srv, Some _ =>
      let '(status, reply, srv') := f srv in
      put_state (set_sasl_server (Some srv') (set_sasl_reply (Some reply) s)) ;;
      ret status
  | _, _ => raise Undef
  end.

Definition reply_text (s : SMTPD_STATE) : string :=
  match sasl_reply s with Some r => STR r | None => EmptyString end.

(** The loop body runs once per line the client sends, so the loop is a
    recursion over the lines that are still to come. *)
Fixpoint xsasl_loop (sasl_method : string) (lines : list string)
    (status : xsasl_status) {struct lines} : M loop_exit :=
  match status with
  | XSASL_AUTH_MORE =>
      s <- get_state ;;
      smtpd_chat_reply ("334 " ++ reply_text s) ;;
      match lines with
      | [] => raise Eof
      | l :: rest =>
          deliver l rest ;;
          s <- get_state ;;
          if strcmp (buffer s) "*" =? 0 then
            msg_warn (namaddr s ++ ": SASL " ++ sasl_method ++ " authentication aborted") ;;
            smtpd_chat_reply "501 5.7.0 Authentication aborted" ;;
            ret (Returned (-1))
          else
            emit (Ev_xsasl_next (STR (buffer s))) ;;
            status' <- xsasl_step (fun srv => xsasl_server_next srv (STR (buffer s))) ;;
            xsasl_loop sasl_method rest status'
      end
  | _ => ret (Fell_out status)
  end.

(** smtpd_sasl_authenticate - per-session authentication. *)
Definition smtpd_sasl_authenticate (sasl_method : string)
    (init_response : option string) : M Z :=
  emit (Ev_xsasl_first sasl_method init_response) ;;
  status <- xsasl_step (fun srv => xsasl_server_first srv sasl_method init_response) ;;
  lines <- get_input ;;
  r <- xsasl_loop sasl_method lines status ;;
  match r with
  | Returned v => ret v
  | Fell_out XSASL_AUTH_DONE =>
      smtpd_chat_reply "235 2.7.0 Authentication successful" ;;
      emit Ev_xsasl_get_username ;;
      s <- get_state ;;
      match sasl_server s with
      | None => raise Undef
      | Some srv =>
          match xsasl_server_get_username srv with
          | None => msg_panic "cannot look up the authenticated SASL username"
          | Some sasl_username =>
              modify (set_sasl_username (Some (printable (mystrdup sasl_username) "?"))) ;;
              modify (set_sasl_method (Some (printable (mystrdup sasl_method) "?"))) ;;
              ret 0
          end
      end
  | Fell_out _ =>
      s <- get_state ;;
      msg_warn (namaddr s ++ ": SASL " ++ sasl_method ++ " authentication failed: "
                ++ reply_text s) ;;
      smtpd_chat_reply ("535 5.7.8 Error: authentication failed: " ++ reply_text s) ;;
      ret (-1)
  end.

(* ------------------------------------------------------------------ *)
(** ** The password-server path (Open Directory) *)

(** The directory helpers log through [msg_error] and read nothing of the
    session, so each is a pair: what it logs, in order, and what it
    returns. *)
Definition logged (A : Type) : Type := (list event * A)%type.

(** A call of such a helper: its log goes to the event log. *)
Definition call {A} (l : logged A) : M A :=
  fun w => (Ret (snd l), mkWorld (state w) (smtpd_sasl_impl w)
                                 (smtpd_pw_server_sasl_opts w) (input w)
                                 (trace w ++ fst l)).

(** print_cf_error: the failure reason of the error when there is one,
    the default text otherwise. *)
Definition print_cf_error (in_cf_err_ref : CFErrorRef) (in_default_str : string)
  : event :=
  match in_cf_err_ref with
  | Some (Some reason) => Ev_msg_error ("CF: " ++ STR reason)
  | _ => Ev_msg_error (STR in_default_str)
  end.

(** od_open: only the session is checked; the test after the node is
    created looks at the session again. *)
Definition od_open_logged : logged bool :=
  if ODSessionCreate then ([], true)
  else ([print_cf_error ODSessionCreate_error "Unable to create OD Session"], false).

Definition od_get_user_record_logged (in_user : string) : logged (option ODRecordRef) :=
  if CFStringCreateWithCString in_user then
    match ODNodeCopyRecord in_user with
    | Some od_rec_ref => ([], Some od_rec_ref)
    | None =>
        ([print_cf_error (ODNodeCopyRecord_error in_user) "Unable to lookup user record"],
         None)
    end
  else ([Ev_msg_error "Unable to create user name CFStringRef"], None).

(** od_do_clear_text_auth.  The value [None] stands for the [return;]
    without a value that is taken when the password is no CFString.  The
    error reference the routine prints after a failed look-up is its own
    local one, which is null. *)
Definition od_do_clear_text_auth_logged (in_user in_passwd : option string)
  : logged (option eAOD) :=
  match in_user, in_passwd with
  | Some in_user, Some in_passwd =>
      let (log_open, opened) := od_open_logged in
      if negb opened then (log_open, Some eAOD_open_OD_failed)
      else
        let (log_rec, od_rec_ref) := od_get_user_record_logged in_user in
        match od_rec_ref with
        | None =>
            ((log_open ++ log_rec
                ++ [print_cf_error None "Unable to lookup user record"])%list,
             Some eAOD_unknown_user)
        | Some od_rec_ref =>
            if negb (CFStringCreateWithCString in_passwd) then
              ((log_open ++ log_rec
                  ++ [Ev_msg_error "Unable to create user name CFStringRef"])%list,
               None)
            else if ODRecordVerifyPassword od_rec_ref in_passwd then
              ((log_open ++ log_rec)%list, Some eAOD_no_error)
            else
              ((log_open ++ log_rec
                  ++ match ODRecordVerifyPassword_error od_rec_ref in_passwd with
                     | None => []
                     | Some e => [print_cf_error (Some e) "Auth failed"]
                     end)%list,
               Some eAOD_passwd_mismatch)
        end
  | _, _ => ([], Some eAOD_param_error)
  end.

(** od_validate_response.  The value [None]: a string that is no CFString
    was appended to the authentication buffer.  The authentication type
    is only tested for null; the error of a failed verification is
    released unprinted. *)
Definition od_validate_response_logged
    (in_user in_chal in_resp in_auth_type : option string) : logged (option eAOD) :=
  match in_user, in_chal, in_resp, in_auth_type with
  | Some in_user, Some in_chal, Some in_resp, Some _ =>
      let (log_open, opened) := od_open_logged in
      if negb opened then (log_open, Some eAOD_open_OD_failed)
      else
        let (log_rec, od_rec_ref) := od_get_user_record_logged in_user in
        match od_rec_ref with
        | None =>
            ((log_open ++ log_rec
                ++ [print_cf_error None "Unable to lookup user record"])%list,
             Some eAOD_system_error)
        | Some od_rec_ref =>
            if CFStringCreateWithCString in_user
               && CFStringCreateWithCString in_chal
               && CFStringCreateWithCString in_resp
            then if ODRecordVerifyPasswordExtended od_rec_ref [in_user; in_chal; in_resp]
                 then ((log_open ++ log_rec)%list, Some eAOD_no_error)
                 else ((log_open ++ log_rec)%list, Some eAOD_passwd_mismatch)
            else ((log_open ++ log_rec)%list, None)
        end
  | _, _, _, _ =>
      ([Ev_msg_error "AOD: Invalid argument passed to validate response"],
       Some eAOD_param_error)
  end.

(** What the helpers return when they are called as the handlers call
    them, on strings that are there. *)
Definition od_open : bool := snd od_open_logged.

Definition od_get_user_record (in_user : string) : option ODRecordRef :=
  snd (od_get_user_record_logged in_user).

Definition od_do_clear_text_auth (in_user in_passwd : string) : option eAOD :=
  snd (od_do_clear_text_auth_logged (Some in_user) (Some in_passwd)).

Definition od_validate_response (in_user in_chal in_resp in_auth_type : string)
  : option eAOD :=
  snd (od_validate_response_logged (Some in_user) (Some in_chal) (Some in_resp)
                                   (Some in_auth_type)).

(** The value a handler reads after a call of [od_do_clear_text_auth]. *)
Definition returned (result : option eAOD) : eAOD :=
  match result with
  | Some v => v
  | None => indeterminate_int
  end.

(** The C string at offset [off] of a buffer that holds [v] and its
    terminator; behind the terminator lie the bytes nobody wrote. *)
Definition c_string_at (v : string) (off : nat) : string :=
  STR (drop off (v ++ String NUL (uninitialized v))).

Definition isalnum (c : ascii) : bool :=
  ((48 <=? uchar c) && (uchar c <=? 57))
  || ((65 <=? uchar c) && (uchar c <=? 90))
  || ((97 <=? uchar c) && (uchar c <=? 122)).

Fixpoint string_filter (p : ascii -> bool) (s : string) : string :=
  match s with
  | EmptyString => EmptyString
  | String c s' => if p c then String c (string_filter p s') else string_filter p s'
  end.

(** get_random_chars keeps the first [in_len - 1] alphanumeric bytes that
    /dev/urandom delivers, [urandom_chars] here.  (Without a random
    device the routine prints the time of day instead; the dialog treats
    the result alike.) *)
Definition get_random_chars (in_len : nat) : string :=
  take (in_len - 1) (string_filter isalnum urandom_chars).

Definition dec (n : N) : string := NilZero.string_of_uint (N.to_uint n).

(** ["<%lu.-%s.-%lu-@-%s>"] *)
Definition make_challenge (pid : N) (rand_buf : string) (now : N) (host_name : string)
  : string :=
  "<" ++ dec pid ++ ".-" ++ STR rand_buf ++ ".-" ++ dec now ++ "-@-" ++ STR host_name ++ ">".

Definition mask_enabled (opts bit : Z) : bool := negb (Z.land opts bit =? 0).

(** The two assignments every handler makes on success. *)
Definition set_identity (user method : string) : M unit :=
  modify (set_sasl_username (Some (mystrdup user))) ;;
  modify (set_sasl_method (Some (mystrdup method))).

(** do_auth_login *)
Definition do_auth_login (in_method : string) : M (option string) :=
  opts <- get_opts ;;
  if negb (mask_enabled opts PW_SERVER_LOGIN) then
    msg_error "Authentication method: LOGIN is not enabled" ;;
    ret (Some "504 Authentication method not enabled")
  else
    smtpd_chat_reply ("334 " ++ STR (base64_encode "Username:")) ;;
    smtpd_chat_query ;;
    s <- get_state ;;
    if strcmp (buffer s) "*" =? 0 then
      msg_error "Authentication aborted by client" ;;
      ret (Some "501 Authentication aborted")
    else
      match base64_decode (buffer s) with
      | None =>
          msg_error "Malformed response to: AUTH LOGIN" ;;
          ret (Some "501 Authentication failed: malformed initial response")
      | Some vs_user =>
          smtpd_chat_reply ("334 " ++ STR (base64_encode "Password:")) ;;
          smtpd_chat_query ;;
          s <- get_state ;;
          if strcmp (buffer s) "*" =? 0 then
            msg_error "Authentication aborted by client" ;;
            ret (Some "501 Authentication aborted")
          else
            match base64_decode (buffer s) with
            | None =>
                msg_error "Malformed response to: AUTH LOGIN" ;;
                ret (Some "501 Authentication failed: malformed response")
            | Some vs_pwd =>
                emit (Ev_od_clear_text_auth (STR vs_user) (STR vs_pwd)) ;;
                result <- call (od_do_clear_text_auth_logged (Some (STR vs_user))
                                                             (Some (STR vs_pwd))) ;;
                match returned result with
                | eAOD_no_error =>
                    set_identity (STR vs_user) in_method ;;
                    ret None
                | _ =>
                    msg_error "Authentication failed" ;;
                    ret (Some "535 Error: authentication failed")
                end
            end
      end.

(** do_auth_plain.  [ptr] is an offset into the decoded buffer; nothing
    keeps it in front of the terminator. *)
Definition do_auth_plain (in_method : string) (in_resp : option string)
  : M (option string) :=
  opts <- get_opts ;;
  if negb (mask_enabled opts PW_SERVER_PLAIN) then
    msg_error "Authentication method: PLAIN is not enabled" ;;
    ret (Some "504 Authentication method not enabled")
  else
    decoded <-
      match in_resp with
      | None =>
          smtpd_chat_reply "334" ;;
          smtpd_chat_query ;;
          s <- get_state ;;
          ret (base64_decode (buffer s))
      | Some resp => ret (base64_decode (STR resp))
      end ;;
    match decoded with
    | None =>
        msg_error "Malformed response to: AUTH PLAIN" ;;
        ret (Some "501 Authentication failed: malformed initial response")
    | Some vs_base64 =>
        let ptr : nat :=
          match vs_base64 with
          | EmptyString => 1%nat
          | String c _ => if Ascii.eqb c NUL then 1%nat else 0%nat
          end in
        let p_user := c_string_at vs_base64 ptr in
        let ptr := (ptr + (String.length p_user + 1))%nat in
        let p_pwd := c_string_at vs_base64 ptr in
        emit (Ev_od_clear_text_auth p_user p_pwd) ;;
        result <- call (od_do_clear_text_auth_logged (Some p_user) (Some p_pwd)) ;;
        match returned result with
        | eAOD_no_error =>
            set_identity p_user in_method ;;
            ret None
        | _ => ret (Some "535 Error: authentication failed")
        end
    end.

(** do_auth_cram_md5 *)
Definition do_auth_cram_md5 (in_method : string) : M (option string) :=
  opts <- get_opts ;;
  if negb (mask_enabled opts PW_SERVER_CRAM_MD5) then
    msg_error "Authentication method: CRAM-MD5 is not enabled" ;;
    ret (Some "504 Authentication method not enabled")
  else
    let host_name := gethostname in
    let rand_buf := get_random_chars 17 in
    let vs_chal := make_challenge getpid rand_buf time0 host_name in
    smtpd_chat_reply ("334 " ++ STR (base64_encode vs_chal)) ;;
    smtpd_chat_query ;;
    s <- get_state ;;
    if strcmp (buffer s) "*" =? 0 then
      ret (Some "501 Authentication aborted")
    else
      match base64_decode (buffer s) with
      | None =>
          msg_error "Malformed response to: AUTH CRAM-MD5" ;;
          ret (Some "501 Authentication failed: malformed initial response")
      | Some vs_base64 =>
          match strchr vs_base64 " " with
          | Some len =>
              let vs_user := vstring_strncpy vs_base64 len in
              match cstr_at vs_base64 (S len) with
              | None => raise Undef
              | Some ptr =>
                  emit (Ev_od_validate_response (STR vs_user) (STR vs_chal) ptr
                                                kDSStdAuthCRAM_MD5) ;;
                  result <- call (od_validate_response_logged
                                    (Some (STR vs_user)) (Some (STR vs_chal)) (Some ptr)
                                    (Some kDSStdAuthCRAM_MD5)) ;;
                  match result with
                  | None => raise Undef
                  | Some eAOD_no_error =>
                      set_identity (STR vs_user) in_method ;;
                      ret None
                  | Some _ => ret (Some "535 Error: authentication failed")
                  end
              end
          | None => ret (Some "535 Error: authentication failed")
          end
      end.

Definition is_set {A} (p : option A) : bool :=
  match p with Some _ => true | None => false end.

(** smtpd_pw_server_authenticate *)
Definition smtpd_pw_server_authenticate (in_method : string) (in_resp : option string)
  : M (option string) :=
  s <- get_state ;;
  (if is_set (sasl_username s) || is_set (sasl_method s)
   then msg_panic "smtpd_pw_server_authenticate: already authenticated"
   else ret tt) ;;
  if strcasecmp in_method "LOGIN" =? 0 then do_auth_login in_method
  else if strcasecmp in_method "PLAIN" =? 0 then do_auth_plain in_method in_resp
  else if strcasecmp in_method "CRAM-MD5" =? 0 then do_auth_cram_md5 in_method
  else
    msg_error "Authentication method: &s is not supported" ;;
    ret (Some "504 Unsupported authentication method").

(* ------------------------------------------------------------------ *)
(** ** Sessions as sequences of operations *)

Definition run_op (o : operation) : M unit :=
  match o with
  | Op_connect n v => smtpd_sasl_connect n v
  | Op_authenticate m r => smtpd_sasl_authenticate m r ;; ret tt
  | Op_pw_server_authenticate m r => smtpd_pw_server_authenticate m r ;; ret tt
  | Op_logout => smtpd_sasl_logout
  | Op_disconnect => smtpd_sasl_disconnect
  end.

(** The worlds reached after each operation that completes; a session
    ends with the first operation that does not return. *)
Fixpoint run_ops (ops : list operation) (w : world) : list world :=
  match ops with
  | [] => []
  | o :: ops' =>
      match run_op o w with
      | (Ret _, w') => w' :: run_ops ops' w'
      | (Abend _, _) => []
      end
  end.

(** The password-server mechanisms, their bits in the security options
    and their handlers. *)
Inductive mechanism := Login | Plain | CramMd5.

Definition mechanism_bit (m : mechanism) : Z :=
  match m with
  | Login => PW_SERVER_LOGIN
  | Plain => PW_SERVER_PLAIN
  | CramMd5 => PW_SERVER_CRAM_MD5
  end.

Definition handler (m : mechanism) (in_method : string) (in_resp : option string)
  : M (option string) :=
  match m with
  | Login => do_auth_login in_method
  | Plain => do_auth_plain in_method in_resp
  | CramMd5 => do_auth_cram_md5 in_method
  end.

(** Is the member that holds resource [r] set? *)
Definition held (r : resource) (s : SMTPD_STATE) : bool :=
  match r with
  | R_sasl_reply => is_set (sasl_reply s)
  | R_sasl_mechanism_list => is_set (sasl_mechanism_list s)
  | R_sasl_username => is_set (sasl_username s)
  | R_sasl_method => is_set (sasl_method s)
  | R_sasl_sender => is_set (sasl_sender s)
  | R_sasl_server => is_set (sasl_server s)
  end.

(** The identity members are the same in both worlds. *)
Definition keeps_identity (w w' : world) : Prop :=
  sasl_username (state w') = sasl_username (state w)
  /\ sasl_method (state w') = sasl_method (state w).

Definition both_set (w : world) : Prop :=
  is_set (sasl_username (state w)) = true /\ is_set (sasl_method (state w)) = true.

(** Both identity members are set and hold printable characters only. *)
Definition sanitized (w : world) : Prop :=
  match sasl_username (state w), sasl_method (state w) with
  | Some u, Some m => string_forallb isprint u = true /\ string_forallb isprint m = true
  | _, _ => False
  end.

(** Both members of the identity are set, or neither is. *)
Definition identity_consistent (s : SMTPD_STATE) : Prop :=
  is_set (sasl_username s) = is_set (sasl_method s).

Definition unauthenticated (s : SMTPD_STATE) : Prop :=
  sasl_username s = None /\ sasl_method s = None.

(** A handler either returns the null reply, with user name and method
    both set, or leaves the identity members as they were. *)
Definition handler_post (m : M (option string)) : Prop :=
  forall w, match m w with
            | (Ret None, w') => both_set w'
            | (_, w') => keeps_identity w w'
            end.

(** The world after the events [evs] and the arrival of line [l]. *)
Definition after_line (w : world) (l : string) (rest : list string)
    (evs : list event) : world :=
  mkWorld (set_buffer l (state w)) (smtpd_sasl_impl w)
          (smtpd_pw_server_sasl_opts w) rest (trace w ++ evs).

(** The challenge of a CRAM-MD5 exchange. *)
Definition the_challenge : string :=
  make_challenge getpid (get_random_chars 17) time0 gethostname.

(** The events that [w'] has on top of the log of [w]. *)
Definition new_events (w w' : world) : list event :=
  skipn (List.length (trace w)) (trace w').

(** The reply texts of the password-server path. *)
Definition pw_server_replies : list string :=
  [ "504 Authentication method not enabled";
    "504 Unsupported authentication method";
    "501 Authentication aborted";
    "501 Authentication failed: malformed initial response";
    "501 Authentication failed: malformed response";
    "535 Error: authentication failed" ].

(** Every member that holds a resource is null. *)
Definition all_released (s : SMTPD_STATE) : Prop :=
  forall r, held r s = false.

(** The members a logout has no business with. *)
Definition same_context (s s' : SMTPD_STATE) : Prop :=
  buffer s' = buffer s /\ namaddr s' = namaddr s /\ client s' = client s
  /\ sasl_reply s' = sasl_reply s
  /\ sasl_mechanism_list s' = sasl_mechanism_list s
  /\ sasl_sender s' = sasl_sender s
  /\ sasl_server s' = sasl_server s.

(** The calls of [xsasl_server_next] for the lines [fed], in order. *)
Definition next_events (fed : list string) : list event :=
  map (fun l => Ev_xsasl_next (STR l)) fed.

(** [lines] are the lines [fed] and then [left], with at most one abort
    token between them. *)
Definition consumed (lines fed left : list string) : Prop :=
  lines = (fed ++ left)%list
  \/ exists l, STR l = "*" /\ lines = (fed ++ l :: left)%list.

End Glue.

Notation "x <- m ;; k" := (bind m (fun x => k))
  (at level 61, m at next level, right associativity).
Notation "m ;; k" := (bind m (fun _ => k))
  (at level 61, right associativity).

(* ------------------------------------------------------------------ *)
(** ** A concrete set of collaborators

    One instance of the collaborators, to run the handlers on concrete
    client input: a base64 codec, a two-round plug-in, and a directory
    with a handful of accounts. *)

Module Demo.

Definition chr (z : Z) : ascii := ascii_of_N (Z.to_N z).

Definition to_b64 (v : Z) : ascii :=
  if v <? 26 then chr (65 + v)
  else if v <? 52 then chr (97 + (v - 26))
  else if v <? 62 then chr (48 + (v - 52))
  else if v =? 62 then "+"%char else "/"%char.

Definition un_b64 (c : ascii) : option Z :=
  let n := uchar c in
  if (65 <=? n) && (n <=? 90) then Some (n - 65)
  else if (97 <=? n) && (n <=? 122) then Some (n - 97 + 26)
  else if (48 <=? n) && (n <=? 57) then Some (n - 48 + 52)
  else if n =? 43 then Some 62
  else if n =? 47 then Some 63
  else None.

(** Modelled from the spec: the base64 codec belongs to Postfix's
    utility library and is not under src/.  Encoding gives padded
    base64 text without line breaks. *)
Fixpoint b64_encode (s : string) : string :=
  match s with
  | EmptyString => EmptyString
  | String a EmptyString =>
      String (to_b64 (uchar a / 4))
        (String (to_b64 (uchar a mod 4 * 16)) "==")
  | String a (String b EmptyString) =>
      String (to_b64 (uchar a / 4))
        (String (to_b64 (uchar a mod 4 * 16 + uchar b / 16))
           (String (to_b64 (uchar b mod 16 * 4)) "="))
  | String a (String b (String c rest)) =>
      String (to_b64 (uchar a / 4))
        (String (to_b64 (uchar a mod 4 * 16 + uchar b / 16))
           (String (to_b64 (uchar b mod 16 * 4 + uchar c / 64))
              (String (to_b64 (uchar c mod 64)) (b64_encode rest))))
  end.

Definition is_pad (c : ascii) : bool := Ascii.eqb c "="%char.

(** Modelled from the spec: decoding fails on a character outside the
    alphabet and on incorrect padding (a length that is no multiple of
    four, text behind the padding). *)
Fixpoint b64_decode (s : string) : option string :=
  match s with
  | EmptyString => Some EmptyString
  | String c0 (String c1 (String c2 (String c3 rest))) =>
      match un_b64 c0, un_b64 c1 with
      | Some v0, Some v1 =>
          let b0 := chr (v0 * 4 + v1 / 16) in
          if is_pad c2 then
            match is_pad c3, rest with
            | true, EmptyString => Some (String b0 EmptyString)
            | _, _ => None
            end
          else
            match un_b64 c2 with
            | None => None
            | Some v2 =>
                let b1 := chr (v1 mod 16 * 16 + v2 / 4) in
                if is_pad c3 then
                  match rest with
                  | EmptyString => Some (String b0 (String b1 EmptyString))
                  | _ => None
                  end
                else
                  match un_b64 c3 with
                  | None => None
                  | Some v3 =>
                      let b2 := chr (v2 mod 4 * 64 + v3) in
                      option_map (fun t => String b0 (String b1 (String b2 t)))
                                 (b64_decode rest)
                  end
            end
      | _, _ => None
      end
  | _ => None
  end.

(** A plug-in with one mechanism of two rounds: it asks for a user name,
    then for a password, and accepts the password "secret" (sent as
    base64) under the identity of the account "dave" followed by a tab. *)
Definition plugin_first (srv : nat) (method : string) (init : option string)
  : xsasl_status * string * nat :=
  (XSASL_AUTH_MORE, "VXNlcm5hbWU6", 1%nat).

Definition plugin_next (srv : nat) (resp : string) : xsasl_status * string * nat :=
  match srv with
  | 1%nat => (XSASL_AUTH_MORE, "UGFzc3dvcmQ6", 2%nat)
  | 2%nat => if String.eqb resp "c2VjcmV0"
             then (XSASL_AUTH_DONE, "", 3%nat)
             else (XSASL_AUTH_FAIL, "bad password", 0%nat)
  | _ => (XSASL_AUTH_FAIL, "bad protocol", 0%nat)
  end.

Definition plugin_username (srv : nat) : option string :=
  match srv with
  | 3%nat => Some (String "d" (String "a" (String "v" (String "e" (String (chr 9) "")))))
  | _ => None
  end.

(** The accounts of the directory: alice, bob, carol, and one whose name
    ends in a letter outside ASCII (e with acute accent, two bytes in
    UTF-8). *)
Definition jose : string := String "j" (String "o" (String "s" (String (chr 195) (String (chr 169) "")))).

Definition directory (user : string) : option string :=
  if String.eqb user "alice" then Some "secret"
  else if String.eqb user "bob" then Some "hunter2"
  else if String.eqb user "carol" then Some "tanstaaf"
  else if String.eqb user jose then Some "pw"
  else None.

Definition copy_record (user : string) : option string :=
  match directory user with Some _ => Some user | None => None end.

Definition verify_password (rec passwd : string) : bool :=
  match directory rec with
  | Some p => String.eqb p passwd
  | None => false
  end.

(** The digest the directory expects from carol, whatever the challenge. *)
Definition carol_digest : string := "b913a602c7eda7a495b4e6e7334d3890".

Definition verify_extended (rec : string) (buf : list string) : bool :=
  match buf with
  | [user; _; resp] => String.eqb user "carol" && String.eqb resp carol_digest
  | _ => false
  end.

Fixpoint lookup_mask (table : list (string * Z)) (name : string) : option Z :=
  match table with
  | [] => None
  | (n, m) :: table' => if strcasecmp name n =? 0 then Some m else lookup_mask table' name
  end.

(** A [name_mask] for values that hold a single name. *)
Definition single_name_mask (context : string) (table : list (string * Z)) (names : string)
  : option Z :=
  match names with
  | EmptyString => Some 0
  | _ => lookup_mask table names
  end.

#[export] Instance collaborators : Collaborators := {|
  XSASL_SERVER_IMPL := unit;
  XSASL_SERVER := nat;
  xsasl_server_init := fun _ _ => Some tt;
  xsasl_server_create := fun _ _ _ _ _ => Some 0%nat;
  xsasl_server_get_mechanism_list := fun _ => Some "TWOSTEP";
  xsasl_server_first := plugin_first;
  xsasl_server_next := plugin_next;
  xsasl_server_get_username := plugin_username;
  base64_encode := b64_encode;
  base64_decode := b64_decode;
  name_mask := single_name_mask;
  var_smtpd_sasl_type := "twostep";
  var_smtpd_sasl_path := "smtpd";
  var_smtpd_sasl_realm := "";
  var_smtpd_pw_server_opts := "login";
  PW_SERVER_NONE := 0;
  PW_SERVER_LOGIN := 1;
  PW_SERVER_PLAIN := 2;
  PW_SERVER_CRAM_MD5 := 4;
  PW_SERVER_GSSAPI := 8;
  getpid := 4711%N;
  time0 := 1200000000%N;
  gethostname := "mail.example.com";
  urandom_chars := "q8-Zr2#kLm0xW4vB7nTt9yPpA1";
  ODRecordRef := string;
  ODSessionCreate := true;
  CFStringCreateWithCString := fun _ => true;
  ODNodeCopyRecord := copy_record;
  ODRecordVerifyPassword := verify_password;
  ODRecordVerifyPasswordExtended := verify_extended;
  kDSStdAuthCRAM_MD5 := "dsAuthMethodStandard:dsAuthNodeCRAM-MD5";
  VAR_SMTPD_PW_SERVER_OPTS := "smtpd_pw_server_security_options";
  ODSessionCreate_error := None;
  ODNodeCopyRecord_error := fun _ => None;
  ODRecordVerifyPassword_error := fun _ _ => Some None;
  indeterminate_int := eAOD_auth_failed;
  uninitialized := fun _ => "sesame"
|}.

(** A session right after [smtpd_sasl_connect], in a process that
    enables all three password-server mechanisms. *)
Definition fresh : SMTPD_STATE :=
  mkState "" "client.example.com[192.0.2.1]" "client.example.com"
          (Some "") (Some "TWOSTEP") None None None (Some 0%nat).

Definition world_of (s : SMTPD_STATE) (opts : Z) (lines : list string) : world :=
  mkWorld s (Some tt) opts lines [].

(** A session that has authenticated. *)
Definition authenticated : SMTPD_STATE :=
  mkState "" "client.example.com[192.0.2.1]" "client.example.com"
          (Some "") (Some "TWOSTEP") (Some "bob") (Some "PLAIN") None (Some 0%nat).

(** Two PLAIN payloads: without and with an authorization identity. *)
Definition nul_bob_nul_hunter2 : string :=
  String NUL ("bob" ++ String NUL "hunter2").

Definition admin_nul_bob_nul_hunter2 : string :=
  "admin" ++ String NUL ("bob" ++ String NUL "hunter2").

End Demo.

(** The same collaborators with a plug-in that settles every attempt in
    its first step: an initial response is accepted under the identity
    "dave", its absence is a failure. *)
Module OneStep.

Definition first_step (srv : nat) (method : string) (init : option string)
  : xsasl_status * string * nat :=
  match init with
  | Some _ => (XSASL_AUTH_DONE, "", 1%nat)
  | None => (XSASL_AUTH_FAIL, "an initial response is required", 0%nat)
  end.

Definition next_step (srv : nat) (resp : string) : xsasl_status * string * nat :=
  (XSASL_AUTH_FAIL, "bad protocol", 0%nat).

Definition username (srv : nat) : option string :=
  match srv with
  | 1%nat => Some "dave"
  | _ => None
  end.

Definition collaborators : Collaborators := {|
  XSASL_SERVER_IMPL := unit;
  XSASL_SERVER := nat;
  xsasl_server_init := fun _ _ => Some tt;
  xsasl_server_create := fun _ _ _ _ _ => Some 0%nat;
  xsasl_server_get_mechanism_list := fun _ => Some "ONESTEP";
  xsasl_server_first := first_step;
  xsasl_server_next := next_step;
  xsasl_server_get_username := username;
  base64_encode := Demo.b64_encode;
  base64_decode := Demo.b64_decode;
  name_mask := Demo.single_name_mask;
  var_smtpd_sasl_type := "onestep";
  var_smtpd_sasl_path := "smtpd";
  var_smtpd_sasl_realm := "example.com";
  var_smtpd_pw_server_opts := "";
  PW_SERVER_NONE := 0;
  PW_SERVER_LOGIN := 1;
  PW_SERVER_PLAIN := 2;
  PW_SERVER_CRAM_MD5 := 4;
  PW_SERVER_GSSAPI := 8;
  getpid := 4711%N;
  time0 := 1200000000%N;
  gethostname := "mail.example.com";
  urandom_chars := "q8-Zr2#kLm0xW4vB7nTt9yPpA1";
  ODRecordRef := string;
  ODSessionCreate := true;
  CFStringCreateWithCString := fun _ => true;
  ODNodeCopyRecord := Demo.copy_record;
  ODRecordVerifyPassword := Demo.verify_password;
  ODRecordVerifyPasswordExtended := Demo.verify_extended;
  kDSStdAuthCRAM_MD5 := "dsAuthMethodStandard:dsAuthNodeCRAM-MD5";
  VAR_SMTPD_PW_SERVER_OPTS := "smtpd_pw_server_security_options";
  ODSessionCreate_error := None;
  ODNodeCopyRecord_error := fun _ => None;
  ODRecordVerifyPassword_error := fun _ _ => Some None;
  indeterminate_int := eAOD_auth_failed;
  uninitialized := fun _ => "sesame"
|}.

(** A connected session of this plug-in. *)
Definition connected : @world collaborators :=
  @mkWorld collaborators
    (@mkState collaborators "" "client.example.com[192.0.2.1]" "client.example.com"
              (Some "") (Some "ONESTEP") None None None (Some 0%nat))
    (Some tt) 0 ["MAIL FROM:<dave@example.com>"] [].

End OneStep.

(* ------------------------------------------------------------------ *)
(** ** Facts about C strings *)

Lemma uchar_inj a b : uchar a = uchar b -> a = b.
Proof.
  unfold uchar. intros H. apply N2Z.inj in H.
  rewrite <- (ascii_N_embedding a), <- (ascii_N_embedding b). now rewrite H.
Qed.

Lemma uchar_NUL c : uchar c = 0 <-> c = NUL.
Proof.
  split; intros H.
  - apply uchar_inj. exact H.
  - now subst.
Qed.

Lemma tolower_NUL c : tolower c = NUL <-> c = NUL.
Proof.
  split; intros H.
  - destruct c as [[] [] [] [] [] [] [] []]; vm_compute in H; try discriminate H; reflexivity.
  - now subst.
Qed.

Lemma STR_idem s : STR (STR s) = STR s.
Proof.
  induction s as [|c s IH]; simpl; auto.
  destruct (Ascii.eqb c NUL) eqn:E; simpl; auto. now rewrite E, IH.
Qed.

(** [strcmp] and [strcasecmp] return zero exactly on C strings that are
    equal after [f]. *)
Lemma compare_with_zero f :
  (forall c, f c = NUL <-> c = NUL) ->
  forall a b, compare_with f a b = 0 <-> smap f (STR a) = smap f (STR b).
Proof.
  intros Hf. induction a as [|c a IH]; intros [|d b]; simpl.
  - tauto.
  - destruct (Ascii.eqb_spec d NUL) as [->|Hd]; simpl.
    + assert (E : f NUL = NUL) by now apply Hf. rewrite E. tauto.
    + split; [|discriminate]. intros H.
      assert (H0 : uchar (f d) = 0) by lia.
      apply (proj1 (uchar_NUL _)) in H0. apply (proj1 (Hf _)) in H0. contradiction.
  - destruct (Ascii.eqb_spec c NUL) as [->|Hc]; simpl.
    + assert (E : f NUL = NUL) by now apply Hf. rewrite E. tauto.
    + split; [|discriminate]. intros H.
      apply (proj1 (uchar_NUL _)) in H. apply (proj1 (Hf _)) in H. contradiction.
  - destruct (Z.eqb_spec (uchar (f c)) (uchar (f d))) as [E|E].
    + apply uchar_inj in E.
      destruct (Ascii.eqb_spec c NUL) as [->|Hc].
      * assert (d = NUL) as -> by (apply Hf; rewrite <- E; now apply Hf).
        simpl. tauto.
      * assert (Hd : d <> NUL) by (intros ->; apply Hc, Hf; rewrite E; now apply Hf).
        apply Ascii.eqb_neq in Hd. rewrite Hd. simpl. rewrite IH.
        split; [intros ->; now rewrite E | intros H; now injection H].
    + split; [lia|]. intros H. exfalso. apply E.
      destruct (Ascii.eqb_spec c NUL) as [->|Hc]; destruct (Ascii.eqb_spec d NUL) as [->|Hd];
        simpl in H; try discriminate H; try reflexivity.
      injection H as H _. now rewrite H.
Qed.

Lemma smap_id s : smap (fun c => c) s = s.
Proof. induction s; simpl; congruence. Qed.

Lemma strcmp_zero a b : strcmp a b = 0 <-> STR a = STR b.
Proof.
  unfold strcmp. rewrite compare_with_zero by tauto. now rewrite !smap_id.
Qed.

Lemma strcasecmp_zero a b : strcasecmp a b = 0 <-> eq_nocase a b.
Proof. unfold strcasecmp, eq_nocase, lower. apply compare_with_zero, tolower_NUL. Qed.

Lemma eq_nocase_dec a b : {eq_nocase a b} + {~ eq_nocase a b}.
Proof. unfold eq_nocase. apply string_dec. Qed.

Ltac str_step :=
  cbn [STR string_forallb String.append String.length drop take strchr printable smap].

Ltac split_forallb H :=
  unfold nul_free, no_space in H; cbn [string_forallb] in H;
  let Hc := fresh "Hc" in
  apply andb_prop in H as [Hc H]; apply negb_true_iff in Hc.

Lemma nul_free_STR s : nul_free s = true -> STR s = s.
Proof.
  induction s as [|c s IH]; intros H; str_step; [reflexivity|].
  split_forallb H. rewrite Hc. now rewrite IH.
Qed.



(** A C string in front of a NUL is what [STR] finds. *)
Lemma STR_app_NUL a b : nul_free a = true -> STR (a ++ String NUL b) = a.
Proof.
  induction a as [|c a IH]; intros H; str_step; [reflexivity|].
  split_forallb H. rewrite Hc. now rewrite IH.
Qed.


Lemma drop_app a b : drop (String.length a) (a ++ b) = b.
Proof. induction a; str_step; auto. Qed.







(** The characters [printable] leaves in a C string are all printable. *)
Lemma printable_isprint s :
  string_forallb isprint (printable (STR s) "?") = true.
Proof.
  induction s as [|c s IH]; cbn [STR]; [reflexivity|].
  destruct (Ascii.eqb c NUL) eqn:E; [reflexivity|].
  cbn [printable]. rewrite E. cbn [string_forallb]. rewrite IH.
  destruct (isprint c) eqn:P; [now rewrite P|reflexivity].
Qed.

(* ------------------------------------------------------------------ *)
(** ** Facts about the dialog *)

Section Facts.

Context {C : Collaborators}.

Ltac run_monad :=
  cbv [bind ret raise emit modify get_state put_state get_opts get_impl get_input
       set_opts set_impl msg_warn msg_error msg_panic msg_fatal
       smtpd_chat_reply smtpd_chat_query deliver set_identity release call].

Ltac project :=
  cbn [fst snd state smtpd_sasl_impl smtpd_pw_server_sasl_opts input trace
       buffer namaddr client sasl_reply sasl_mechanism_list sasl_username
       sasl_method sasl_sender sasl_server
       set_buffer set_sasl_reply set_sasl_mechanism_list set_sasl_username
       set_sasl_method set_sasl_sender set_sasl_server is_set negb].

(** Split on the innermost scrutinee of the goal, again and again. *)
Ltac crunch :=
  repeat (project;
          match goal with
          | |- context [match ?x with _ => _ end] =>
              lazymatch x with
              | context [match _ with _ => _ end] => fail
              | _ => destruct x eqn:?
              end
          end);
  project.

Lemma is_set_true {A} (p : option A) : is_set p = true <-> p <> None.
Proof. destruct p; simpl; split; congruence. Qed.

(** What the loop of the generic dialog does with the lines still to come
    is [smtpd_chat_query] on a world whose input they are. *)
Lemma smtpd_chat_query_lines w :
  smtpd_chat_query w
  = match input w with
    | [] => raise Eof w
    | l :: rest => deliver l rest w
    end.
Proof. unfold smtpd_chat_query, raise. now destruct (input w). Qed.

Lemma deliver_input l rest w : input (snd (deliver l rest w)) = rest.
Proof. reflexivity. Qed.

(** C5, as the code has it: when an identity is already there (user name
    or method set), [smtpd_pw_server_authenticate] does not return a
    reply at all; it ends in [msg_panic] before it looks at the method,
    writes to the client or reads from it. *)
Theorem already_authenticated_panics (w : world) (in_method : string)
    (in_resp : option string) :
  sasl_username (state w) <> None \/ sasl_method (state w) <> None ->
  smtpd_pw_server_authenticate in_method in_resp w
  = (Abend (Panic "smtpd_pw_server_authenticate: already authenticated"), w).
Proof.
  intros H. unfold smtpd_pw_server_authenticate. run_monad.
  destruct (sasl_username (state w)), (sasl_method (state w)); simpl;
    try reflexivity.
  destruct H; congruence.
Qed.

(** C6: a handler whose bit is missing from [smtpd_pw_server_sasl_opts]
    returns the 504 "not enabled" reply; the session and the pending
    client lines are untouched and the only event is one [msg_error]: no
    reply is sent, no line is read, neither plug-in nor directory is
    called. *)
Theorem disabled_mechanism_no_transport (m : mechanism) (w : world)
    (in_method : string) (in_resp : option string) :
  Z.land (smtpd_pw_server_sasl_opts w) (mechanism_bit m) = 0 ->
  let r := handler m in_method in_resp w in
  fst r = Ret (Some "504 Authentication method not enabled")
  /\ state (snd r) = state w
  /\ input (snd r) = input w
  /\ (exists text, trace (snd r) = (trace w ++ [Ev_msg_error text])%list)
  /\ (forall e, In e (skipn (List.length (trace w)) (trace (snd r))) ->
                is_transport e = false /\ is_backend e = false).
Proof.
  intros H r. subst r.
  destruct m; simpl in H |- *;
    cbv [do_auth_login do_auth_plain do_auth_cram_md5 mask_enabled]; run_monad;
    rewrite H; simpl;
    (split; [reflexivity|]); (split; [reflexivity|]); (split; [reflexivity|]);
    (split; [eexists; reflexivity|]);
    intros e He; rewrite skipn_app, skipn_all, Nat.sub_diag in He; simpl in He;
    destruct He as [<-|[]]; split; reflexivity.
Qed.

(** C7: once [smtpd_sasl_initialize] has returned, every further call
    ends the process, whatever its argument. *)
Theorem repeated_initialize_is_fatal (first second : Z) (w0 w1 : world) :
  smtpd_sasl_initialize first w0 = (Ret tt, w1) ->
  ConfigurationFatal (fst (smtpd_sasl_initialize second w1)).
Proof.
  intros H.
  assert (Himpl : exists i, smtpd_sasl_impl w1 = Some i).
  { revert H. unfold smtpd_sasl_initialize. run_monad. crunch;
      intros H; inversion H; subst; simpl; eauto. }
  destruct Himpl as [i Hi].
  unfold smtpd_sasl_initialize, ConfigurationFatal. run_monad. crunch;
    try rewrite Hi in *; try discriminate; eauto.
Qed.

(** The second call panics with "repeated call" unless [name_mask]
    ended the process before. *)
Lemma repeated_initialize_panics (second : Z) (w1 : world) :
  smtpd_sasl_impl w1 <> None ->
  second = 0 \/ name_mask VAR_SMTPD_PW_SERVER_OPTS smtpd_pw_server_mask
                          var_smtpd_pw_server_opts <> None ->
  fst (smtpd_sasl_initialize second w1)
  = Abend (Panic "smtpd_sasl_initialize: repeated call").
Proof.
  intros Hi Hm. unfold smtpd_sasl_initialize. run_monad.
  destruct Hm as [->|Hm]; simpl.
  - destruct (smtpd_sasl_impl w1); [reflexivity|congruence].
  - destruct (second =? 0); simpl.
    + destruct (smtpd_sasl_impl w1); [reflexivity|congruence].
    + destruct (name_mask _ _ _); [|congruence]. simpl.
      destruct (smtpd_sasl_impl w1); [reflexivity|congruence].
Qed.

(** C9: [smtpd_sasl_logout] followed by [smtpd_sasl_disconnect].  Both
    return; a second logout changes nothing and logs nothing; after the
    disconnect every member is null; over the two calls each resource
    that was held at the start, the server context among them, is
    released exactly once and nothing else is released; a further
    disconnect finds nothing to release. *)
Theorem logout_disconnect_safe (w : world) :
  let w1 := snd (smtpd_sasl_logout w) in
  let w2 := snd (smtpd_sasl_disconnect w1) in
  fst (smtpd_sasl_logout w) = Ret tt
  /\ smtpd_sasl_logout w1 = (Ret tt, w1)
  /\ fst (smtpd_sasl_disconnect w1) = Ret tt
  /\ (forall r, held r (state w2) = false)
  /\ (exists evs, trace w2 = (trace w ++ evs)%list
                  /\ forall r, frees r evs = if held r (state w) then 1%nat else 0%nat)
  /\ smtpd_sasl_disconnect w2 = (Ret tt, w2).
Proof.
  destruct w as [[buf na cl rep ml un me se srv] impl opts inp tr].
  unfold smtpd_sasl_logout, smtpd_sasl_disconnect. run_monad.
  destruct rep, ml, un, me, se, srv; cbn;
    (split; [reflexivity|]); (split; [reflexivity|]); (split; [reflexivity|]);
    (split; [intros []; reflexivity|]);
    (split; [|reflexivity]);
    repeat rewrite <- app_assoc; cbn;
    try (eexists; split; [reflexivity|intros []; reflexivity]);
    (exists []; split; [now rewrite app_nil_r|intros []; reflexivity]).
Qed.

Lemma do_auth_login_not_unsupported m w :
  fst (do_auth_login m w) <> Ret (Some "504 Unsupported authentication method").
Proof.
  unfold do_auth_login. run_monad. crunch; discriminate.
Qed.

Lemma do_auth_plain_not_unsupported m r w :
  fst (do_auth_plain m r w) <> Ret (Some "504 Unsupported authentication method").
Proof.
  unfold do_auth_plain. run_monad. crunch; discriminate.
Qed.

Lemma do_auth_cram_md5_not_unsupported m w :
  fst (do_auth_cram_md5 m w) <> Ret (Some "504 Unsupported authentication method").
Proof.
  unfold do_auth_cram_md5. run_monad. crunch; discriminate.
Qed.

Lemma strcasecmp_eqb a b : (strcasecmp a b =? 0) = true <-> eq_nocase a b.
Proof. rewrite Z.eqb_eq. apply strcasecmp_zero. Qed.

Lemma strcasecmp_neqb a b : (strcasecmp a b =? 0) = false <-> ~ eq_nocase a b.
Proof. rewrite Z.eqb_neq. now rewrite strcasecmp_zero. Qed.

(** C10: in a session that is not authenticated yet, a method name equal
    to LOGIN, PLAIN or CRAM-MD5 up to the case of its letters runs the
    handler of that mechanism, and the reply "504 Unsupported
    authentication method" is returned exactly for the names that match
    none of the three. *)
Theorem mechanism_selection_ignores_case (w : world) (in_method : string)
    (in_resp : option string) :
  unauthenticated (state w) ->
  (eq_nocase in_method "LOGIN" ->
   smtpd_pw_server_authenticate in_method in_resp w = do_auth_login in_method w)
  /\ (eq_nocase in_method "PLAIN" ->
      smtpd_pw_server_authenticate in_method in_resp w
      = do_auth_plain in_method in_resp w)
  /\ (eq_nocase in_method "CRAM-MD5" ->
      smtpd_pw_server_authenticate in_method in_resp w
      = do_auth_cram_md5 in_method w)
  /\ (fst (smtpd_pw_server_authenticate in_method in_resp w)
      = Ret (Some "504 Unsupported authentication method")
      <-> ~ eq_nocase in_method "LOGIN" /\ ~ eq_nocase in_method "PLAIN"
          /\ ~ eq_nocase in_method "CRAM-MD5").
Proof.
  intros [Hu Hm].
  assert (E : smtpd_pw_server_authenticate in_method in_resp w =
              if strcasecmp in_method "LOGIN" =? 0 then do_auth_login in_method w
              else if strcasecmp in_method "PLAIN" =? 0
                   then do_auth_plain in_method in_resp w
                   else if strcasecmp in_method "CRAM-MD5" =? 0
                        then do_auth_cram_md5 in_method w
                        else (Ret (Some "504 Unsupported authentication method"),
                              mkWorld (state w) (smtpd_sasl_impl w)
                                (smtpd_pw_server_sasl_opts w) (input w)
                                (trace w ++ [Ev_msg_error
                                   "Authentication method: &s is not supported"]))).
  { unfold smtpd_pw_server_authenticate. run_monad. rewrite Hu, Hm. simpl.
    repeat match goal with |- context [if ?b then _ else _] => destruct b end;
      reflexivity. }
  rewrite E. clear E.
  assert (Hlp : eq_nocase in_method "PLAIN" -> ~ eq_nocase in_method "LOGIN").
  { unfold eq_nocase. intros -> H. discriminate H. }
  assert (Hlc : eq_nocase in_method "CRAM-MD5" -> ~ eq_nocase in_method "LOGIN").
  { unfold eq_nocase. intros -> H. discriminate H. }
  assert (Hpc : eq_nocase in_method "CRAM-MD5" -> ~ eq_nocase in_method "PLAIN").
  { unfold eq_nocase. intros -> H. discriminate H. }
  destruct (strcasecmp in_method "LOGIN" =? 0) eqn:EL;
    [apply strcasecmp_eqb in EL | apply strcasecmp_neqb in EL].
  { do 3 (split; [first [tauto | intros; reflexivity]|]).
    split; [intros H; exfalso; revert H; apply do_auth_login_not_unsupported | tauto]. }
  destruct (strcasecmp in_method "PLAIN" =? 0) eqn:EP;
    [apply strcasecmp_eqb in EP | apply strcasecmp_neqb in EP].
  { do 3 (split; [first [tauto | intros; reflexivity]|]).
    split; [intros H; exfalso; revert H; apply do_auth_plain_not_unsupported | tauto]. }
  destruct (strcasecmp in_method "CRAM-MD5" =? 0) eqn:EC;
    [apply strcasecmp_eqb in EC | apply strcasecmp_neqb in EC].
  { do 3 (split; [first [tauto | intros; reflexivity]|]).
    split; [intros H; exfalso; revert H; apply do_auth_cram_md5_not_unsupported | tauto]. }
  do 3 (split; [tauto|]). simpl. tauto.
Qed.

(** *** The identity members *)

Lemma keeps_identity_refl w : keeps_identity w w.
Proof. split; reflexivity. Qed.

Lemma keeps_identity_trans w1 w2 w3 :
  keeps_identity w1 w2 -> keeps_identity w2 w3 -> keeps_identity w1 w3.
Proof. intros [A B] [A' B']. split; congruence. Qed.

Lemma keeps_identity_consistent w w' :
  keeps_identity w w' -> identity_consistent (state w) -> identity_consistent (state w').
Proof. unfold identity_consistent. intros [-> ->]. auto. Qed.

Lemma both_set_consistent w : both_set w -> identity_consistent (state w).
Proof. unfold identity_consistent. intros [-> ->]. reflexivity. Qed.

Ltac identity_goal :=
  cbv [keeps_identity both_set]; project; auto.

Lemma do_auth_login_post m : handler_post (do_auth_login m).
Proof.
  intros w. unfold do_auth_login. run_monad. crunch; identity_goal.
Qed.

Lemma do_auth_plain_post m r : handler_post (do_auth_plain m r).
Proof.
  intros w. unfold do_auth_plain. run_monad. crunch; identity_goal.
Qed.

Lemma do_auth_cram_md5_post m : handler_post (do_auth_cram_md5 m).
Proof.
  intros w. unfold do_auth_cram_md5. run_monad. crunch; identity_goal.
Qed.

Lemma smtpd_pw_server_authenticate_post m r :
  handler_post (smtpd_pw_server_authenticate m r).
Proof.
  intros w. unfold smtpd_pw_server_authenticate. run_monad.
  destruct (is_set (sasl_username (state w)) || is_set (sasl_method (state w)));
    [apply keeps_identity_refl|].
  destruct (strcasecmp m "LOGIN" =? 0); [apply do_auth_login_post|].
  destruct (strcasecmp m "PLAIN" =? 0); [apply do_auth_plain_post|].
  destruct (strcasecmp m "CRAM-MD5" =? 0); [apply do_auth_cram_md5_post|].
  identity_goal.
Qed.

(** The loop of the generic dialog never touches the identity members,
    and its only [return] returns -1. *)
Lemma xsasl_loop_keeps m lines :
  forall status w,
    keeps_identity w (snd (xsasl_loop m lines status w))
    /\ forall v, fst (xsasl_loop m lines status w) = Ret (Returned v) -> v = -1.
Proof.
  induction lines as [|l rest IH]; intros status w; destruct status;
    simpl; unfold xsasl_step; run_monad;
    try (split; [identity_goal|project; congruence]).
  crunch; try (split; [identity_goal|project; congruence]).
  split; [|apply IH].
  eapply keeps_identity_trans; [|apply IH]. identity_goal.
Qed.

(** [smtpd_sasl_authenticate] returns 0 with both members set, or -1 with
    the members as they were. *)
Lemma smtpd_sasl_authenticate_post m r w :
  match smtpd_sasl_authenticate m r w with
  | (Ret v, w') => (v = 0 /\ sanitized w') \/ (v = -1 /\ keeps_identity w w')
  | (Abend _, w') => keeps_identity w w'
  end.
Proof.
  unfold smtpd_sasl_authenticate, xsasl_step. run_monad. project.
  destruct (sasl_server (state w)) as [srv|] eqn:Es; [|identity_goal].
  destruct (sasl_reply (state w)) as [rep|] eqn:Er; [|identity_goal].
  project.
  destruct (xsasl_server_first srv m r) as [[status reply] srv'].
  project.
  match goal with
  | |- context [xsasl_loop m ?ls ?st ?w1] =>
      destruct (xsasl_loop_keeps m ls st w1) as [Hl Hv];
      destruct (xsasl_loop m ls st w1) as [[[v|status'']|e] w2]
  end; cbn [fst snd] in Hl, Hv;
    assert (Hk : keeps_identity w w2)
      by (eapply keeps_identity_trans; [|exact Hl]; identity_goal).
  - right. split; [now apply Hv|exact Hk].
  - destruct Hk as [Hu Hm].
    destruct status''; crunch; try (identity_goal; fail).
    left. split; [reflexivity|]. unfold sanitized, mystrdup. project.
    split; apply printable_isprint.
  - exact Hk.
Qed.

Lemma sanitized_both_set w : sanitized w -> both_set w.
Proof.
  unfold sanitized, both_set.
  destruct (sasl_username (state w)), (sasl_method (state w)); simpl; tauto.
Qed.

(** After [smtpd_sasl_connect], [smtpd_sasl_logout] and
    [smtpd_sasl_disconnect] there is no identity, whatever was there
    before. *)
Lemma smtpd_sasl_connect_clears n v w :
  unauthenticated (state (snd (smtpd_sasl_connect n v w))).
Proof.
  unfold smtpd_sasl_connect, unauthenticated. run_monad. crunch; auto.
Qed.

Lemma smtpd_sasl_logout_clears w :
  unauthenticated (state (snd (smtpd_sasl_logout w))).
Proof.
  unfold smtpd_sasl_logout, unauthenticated. run_monad. crunch; auto.
Qed.

Lemma smtpd_sasl_disconnect_clears w :
  unauthenticated (state (snd (smtpd_sasl_disconnect w))).
Proof.
  unfold smtpd_sasl_disconnect, unauthenticated. run_monad. crunch; auto.
Qed.

Lemma unauthenticated_consistent s : unauthenticated s -> identity_consistent s.
Proof. unfold identity_consistent. intros [-> ->]. reflexivity. Qed.

(** An operation that returns leaves both members set, or both absent,
    or both as it found them. *)
Lemma run_op_identity o w w' :
  run_op o w = (Ret tt, w') ->
  identity_consistent (state w') \/ keeps_identity w w'.
Proof.
  intros Hrun. destruct o as [n v|m r|m r| |]; simpl in Hrun.
  - left. apply unauthenticated_consistent.
    replace w' with (snd (smtpd_sasl_connect n v w)) by now rewrite Hrun.
    apply smtpd_sasl_connect_clears.
  - unfold bind in Hrun. pose proof (smtpd_sasl_authenticate_post m r w) as Hp.
    destruct (smtpd_sasl_authenticate m r w) as [[v|e] w1]; [|discriminate].
    inversion Hrun; subst.
    destruct Hp as [[_ Hb]|[_ Hk]];
      [left; now apply both_set_consistent, sanitized_both_set | now right].
  - unfold bind in Hrun. pose proof (smtpd_pw_server_authenticate_post m r w) as Hp.
    destruct (smtpd_pw_server_authenticate m r w) as [[[reply|]|e] w1];
      [| |discriminate]; inversion Hrun; subst.
    + now right.
    + left. now apply both_set_consistent.
  - left. apply unauthenticated_consistent.
    replace w' with (snd (smtpd_sasl_logout w)) by now rewrite Hrun.
    apply smtpd_sasl_logout_clears.
  - left. apply unauthenticated_consistent.
    replace w' with (snd (smtpd_sasl_disconnect w)) by now rewrite Hrun.
    apply smtpd_sasl_disconnect_clears.
Qed.

(** Every operation that returns hands the invariant on. *)
Lemma run_op_consistent o w w' :
  run_op o w = (Ret tt, w') ->
  identity_consistent (state w) -> identity_consistent (state w').
Proof.
  intros Hrun Hc. destruct (run_op_identity o w w' Hrun) as [H|H]; [exact H|].
  now apply (keeps_identity_consistent w).
Qed.

(** From any state at all: a state in which exactly one member is set
    is never made by an operation; it can only be the state the sequence
    started from, handed on untouched. *)
Lemma half_identity_is_never_made (ops : list operation) (w : world) :
  Forall (fun w' => identity_consistent (state w') \/ keeps_identity w w')
         (run_ops ops w).
Proof.
  revert w. induction ops as [|o ops IH]; intros w; simpl; [constructor|].
  destruct (run_op o w) as [[[]|e] w1] eqn:Hrun; constructor.
  - eapply run_op_identity; eauto.
  - apply run_op_identity in Hrun. eapply Forall_impl; [|apply IH].
    intros w' [H|H]; [now left|]. destruct Hrun as [Hc|Hk].
    + left. now apply (keeps_identity_consistent w1).
    + right. now apply (keeps_identity_trans w w1).
Qed.

(** A session that starts with [smtpd_sasl_connect] satisfies the
    invariant throughout, whatever the state before the connect. *)
Lemma connected_session_consistent n v (ops : list operation) (w : world) :
  Forall (fun w' => identity_consistent (state w')) (run_ops (Op_connect n v :: ops) w).
Proof.
  pose proof (half_identity_is_never_made (Op_connect n v :: ops) w) as H.
  simpl in H |- *.
  pose proof (smtpd_sasl_connect_clears n v w) as Hc.
  destruct (smtpd_sasl_connect n v w) as [[[]|e] w1]; [|constructor].
  simpl in Hc. apply unauthenticated_consistent in Hc.
  constructor; [exact Hc|].
  pose proof (half_identity_is_never_made ops w1) as H1.
  eapply Forall_impl; [|exact H1].
  intros w' [H'|H']; [exact H'|]. now apply (keeps_identity_consistent w1).
Qed.

(** C1: in a session whose identity members are both set or both absent,
    they are both set or both absent after every operation of every
    sequence of connect, authenticate (generic or password server),
    logout and disconnect that runs to completion. *)
Theorem identity_invariant (ops : list operation) (w : world) :
  identity_consistent (state w) ->
  Forall (fun w' => identity_consistent (state w')) (run_ops ops w).
Proof.
  revert w. induction ops as [|o ops IH]; intros w Hc; simpl.
  - constructor.
  - destruct (run_op o w) as [[[]|e] w'] eqn:Hrun; constructor.
    + eapply run_op_consistent; eauto.
    + apply IH. eapply run_op_consistent; eauto.
Qed.

(** The generic path stores a sanitized identity. *)
Lemma smtpd_sasl_authenticate_sanitizes m r w w' :
  smtpd_sasl_authenticate m r w = (Ret 0, w') -> sanitized w'.
Proof.
  intros H. pose proof (smtpd_sasl_authenticate_post m r w) as Hp.
  rewrite H in Hp. destruct Hp as [[_ Hs]|[Hv _]]; [exact Hs|discriminate].
Qed.

(** *** The abort token *)

Lemma strcmp_star l : (strcmp l "*" =? 0) = true <-> STR l = "*".
Proof. rewrite Z.eqb_eq. apply strcmp_zero. Qed.

Lemma strcmp_not_star l : (strcmp l "*" =? 0) = false <-> STR l <> "*".
Proof. rewrite Z.eqb_neq. now rewrite strcmp_zero. Qed.

Ltac settle :=
  repeat (project; rewrite <- ?app_assoc); cbn [app]; reflexivity.

(** The generic dialog: the token ends the attempt with the 501 reply and
    without a further call of the plug-in. *)
Lemma xsasl_loop_abort m l rest w :
  STR l = "*" ->
  xsasl_loop m (l :: rest) XSASL_AUTH_MORE w
  = (Ret (Returned (-1)),
     after_line w l rest
       [ Ev_chat_reply ("334 " ++ reply_text (state w)); Ev_chat_query l;
         Ev_msg_warn (namaddr (state w) ++ ": SASL " ++ m ++ " authentication aborted");
         Ev_chat_reply "501 5.7.0 Authentication aborted" ]).
Proof.
  intros H. apply strcmp_star in H. unfold after_line.
  cbn [xsasl_loop]. run_monad. project. rewrite H.
  settle.
Qed.

(** LOGIN: the token in answer to the user name prompt. *)
Lemma do_auth_login_abort_first m l rest w :
  mask_enabled (smtpd_pw_server_sasl_opts w) PW_SERVER_LOGIN = true ->
  input w = l :: rest -> STR l = "*" ->
  do_auth_login m w
  = (Ret (Some "501 Authentication aborted"),
     after_line w l rest
       [ Ev_chat_reply ("334 " ++ STR (base64_encode "Username:")); Ev_chat_query l;
         Ev_msg_error "Authentication aborted by client" ]).
Proof.
  intros He Hi H. apply strcmp_star in H. unfold after_line, do_auth_login.
  run_monad. rewrite He. project. rewrite Hi. project. rewrite H.
  settle.
Qed.

(** LOGIN: the token in answer to the password prompt. *)
Lemma do_auth_login_abort_second m l1 l2 rest vs_user w :
  mask_enabled (smtpd_pw_server_sasl_opts w) PW_SERVER_LOGIN = true ->
  input w = l1 :: l2 :: rest -> STR l1 <> "*" ->
  base64_decode l1 = Some vs_user -> STR l2 = "*" ->
  do_auth_login m w
  = (Ret (Some "501 Authentication aborted"),
     after_line w l2 rest
       [ Ev_chat_reply ("334 " ++ STR (base64_encode "Username:")); Ev_chat_query l1;
         Ev_chat_reply ("334 " ++ STR (base64_encode "Password:")); Ev_chat_query l2;
         Ev_msg_error "Authentication aborted by client" ]).
Proof.
  intros He Hi H1 Hd H2. apply strcmp_not_star in H1. apply strcmp_star in H2.
  unfold after_line, do_auth_login.
  run_monad. rewrite He. project. rewrite Hi. project. rewrite H1, Hd. project.
  rewrite H2. settle.
Qed.

(** CRAM-MD5: the token in answer to the challenge. *)
Lemma do_auth_cram_md5_abort m l rest w :
  mask_enabled (smtpd_pw_server_sasl_opts w) PW_SERVER_CRAM_MD5 = true ->
  input w = l :: rest -> STR l = "*" ->
  do_auth_cram_md5 m w
  = (Ret (Some "501 Authentication aborted"),
     after_line w l rest
       [ Ev_chat_reply ("334 " ++ STR (base64_encode the_challenge)); Ev_chat_query l ]).
Proof.
  intros He Hi H. apply strcmp_star in H. unfold after_line, do_auth_cram_md5.
  run_monad. rewrite He. project. rewrite Hi. project. rewrite H.
  settle.
Qed.

(** PLAIN has no abort reply at all ... *)
Lemma do_auth_plain_never_aborted m r w :
  fst (do_auth_plain m r w) <> Ret (Some "501 Authentication aborted").
Proof.
  unfold do_auth_plain. run_monad. crunch; discriminate.
Qed.

(** ... it hands the token to the base64 decoder like any other line. *)
Lemma do_auth_plain_star m rest w :
  mask_enabled (smtpd_pw_server_sasl_opts w) PW_SERVER_PLAIN = true ->
  input w = "*" :: rest -> base64_decode "*" = None ->
  do_auth_plain m None w
  = (Ret (Some "501 Authentication failed: malformed initial response"),
     after_line w "*" rest
       [ Ev_chat_reply "334"; Ev_chat_query "*";
         Ev_msg_error "Malformed response to: AUTH PLAIN" ]).
Proof.
  intros He Hi Hd. unfold after_line, do_auth_plain.
  run_monad. rewrite He. project. rewrite Hi. project. rewrite Hd.
  settle.
Qed.

Lemma mask_enabled_true opts bit : Z.land opts bit <> 0 -> mask_enabled opts bit = true.
Proof. unfold mask_enabled. intros H. apply Z.eqb_neq in H. now rewrite H. Qed.

(** *** PLAIN: where the handler finds user name and password *)

Lemma drop_past a c b : drop (String.length a + 1) (a ++ String c b) = b.
Proof. induction a; str_step; cbn [Nat.add drop]; auto. Qed.


Lemma cstr_at_start v : cstr_at v 0 = Some (STR v).
Proof. reflexivity. Qed.

Lemma STR_app_terminated a b : STR (a ++ String NUL b) = STR a.
Proof.
  induction a as [|c a IH]; str_step; [reflexivity|].
  destruct (Ascii.eqb c NUL); [reflexivity|]. now rewrite IH.
Qed.

Lemma string_app_assoc (a b c : string) : ((a ++ b) ++ c = a ++ (b ++ c))%string.
Proof. induction a; str_step; congruence. Qed.

(** In front of the terminator a C string ends where the data has a NUL
    or where the data ends. *)
Lemma c_string_at_start v : c_string_at v 0 = STR v.
Proof. unfold c_string_at. cbn [drop]. apply STR_app_terminated. Qed.

Lemma c_string_at_past a c b :
  c_string_at (a ++ String c b) (String.length a + 1) = STR b.
Proof.
  unfold c_string_at. rewrite string_app_assoc. cbn [String.append].
  rewrite drop_past. apply STR_app_terminated.
Qed.

(** Behind the terminator it is made of bytes nobody wrote. *)
Lemma c_string_at_behind v :
  c_string_at v (String.length v + 1) = STR (uninitialized v).
Proof. unfold c_string_at. now rewrite drop_past. Qed.

Lemma od_open_logs : Forall (fun e => is_log e = true) (fst od_open_logged).
Proof.
  unfold od_open_logged, print_cf_error.
  destruct ODSessionCreate; [constructor|].
  destruct ODSessionCreate_error as [[?|]|]; repeat constructor.
Qed.

Lemma od_get_user_record_logs in_user :
  Forall (fun e => is_log e = true) (fst (od_get_user_record_logged in_user)).
Proof.
  unfold od_get_user_record_logged, print_cf_error.
  destruct (CFStringCreateWithCString in_user); [|repeat constructor].
  destruct (ODNodeCopyRecord in_user); [constructor|].
  destruct (ODNodeCopyRecord_error in_user) as [[?|]|]; repeat constructor.
Qed.

Lemma od_do_clear_text_auth_logs in_user in_passwd :
  Forall (fun e => is_log e = true)
         (fst (od_do_clear_text_auth_logged in_user in_passwd)).
Proof.
  unfold od_do_clear_text_auth_logged.
  destruct in_user as [u|], in_passwd as [p|]; try constructor.
  pose proof od_open_logs as Ho. pose proof (od_get_user_record_logs u) as Hr.
  destruct od_open_logged as [lo opened]. destruct (od_get_user_record_logged u) as [lr rec].
  cbn [fst] in Ho, Hr.
  destruct opened; cbn [negb]; [|exact Ho].
  destruct rec as [rec|]; [destruct (CFStringCreateWithCString p); cbn [negb];
                           [destruct (ODRecordVerifyPassword rec p)|]|];
    cbn [fst]; repeat (apply Forall_app; split); auto;
    unfold print_cf_error;
    try destruct (ODRecordVerifyPassword_error rec p) as [[?|]|]; repeat constructor.
Qed.

Lemma od_validate_response_logs in_user in_chal in_resp in_auth_type :
  Forall (fun e => is_log e = true)
         (fst (od_validate_response_logged in_user in_chal in_resp in_auth_type)).
Proof.
  unfold od_validate_response_logged.
  destruct in_user as [u|], in_chal as [c|], in_resp as [r|], in_auth_type as [t|];
    try (repeat constructor; fail).
  pose proof od_open_logs as Ho. pose proof (od_get_user_record_logs u) as Hr.
  destruct od_open_logged as [lo opened]. destruct (od_get_user_record_logged u) as [lr rec].
  cbn [fst] in Ho, Hr.
  destruct opened; cbn [negb]; [|exact Ho].
  destruct rec as [rec|];
    [destruct (CFStringCreateWithCString u && CFStringCreateWithCString c
               && CFStringCreateWithCString r);
     [destruct (ODRecordVerifyPasswordExtended rec [u; c; r])|]|];
    cbn [fst]; repeat (apply Forall_app; split); auto; repeat constructor.
Qed.

(** The triple with an empty authorization identity: the leading NUL is
    skipped, and the directory is asked about the authentication identity
    and the password; what the helper logs follows in the event log.  Its
    answer, or what is read for it after the return without a value,
    decides between the null reply and the 535 one. *)
Lemma do_auth_plain_empty_authzid m tok w authcid password :
  Z.land (smtpd_pw_server_sasl_opts w) PW_SERVER_PLAIN <> 0 ->
  base64_decode (STR tok) = Some (String NUL (authcid ++ String NUL password)) ->
  nul_free authcid = true ->
  let r := do_auth_plain m (Some tok) w in
  trace (snd r)
  = (trace w ++ Ev_od_clear_text_auth authcid (STR password)
       :: fst (od_do_clear_text_auth_logged (Some authcid) (Some (STR password))))%list
  /\ fst r = match returned (od_do_clear_text_auth authcid (STR password)) with
             | eAOD_no_error => Ret None
             | _ => Ret (Some "535 Error: authentication failed")
             end
  /\ (fst r = Ret None ->
      sasl_username (state (snd r)) = Some authcid
      /\ sasl_method (state (snd r)) = Some (STR m)).
Proof.
  intros He Hd Hn r. subst r. apply mask_enabled_true in He.
  unfold do_auth_plain. run_monad. rewrite He. project. rewrite Hd.
  cbv beta iota. change (Ascii.eqb NUL NUL) with true. cbv iota zeta.
  assert (E1 : c_string_at (String NUL (authcid ++ String NUL password)) 1 = authcid).
  { exact (eq_trans (c_string_at_past "" NUL (authcid ++ String NUL password))
                    (STR_app_NUL _ _ Hn)). }
  assert (E2 : c_string_at (String NUL (authcid ++ String NUL password))
                           (1 + (String.length authcid + 1)) = STR password).
  { exact (c_string_at_past (String NUL authcid) NUL password). }
  rewrite E1. rewrite E2. unfold mystrdup, od_do_clear_text_auth.
  rewrite (nul_free_STR _ Hn). project.
  destruct (returned (snd (od_do_clear_text_auth_logged (Some authcid) (Some (STR password)))));
    project; rewrite <- ?app_assoc; cbn [app];
    repeat split; try discriminate; reflexivity.
Qed.

(** The triple with an authorization identity: the handler takes the
    authorization identity for the user name and the authentication
    identity for the password. *)
Lemma do_auth_plain_with_authzid m tok w c authzid authcid password :
  Z.land (smtpd_pw_server_sasl_opts w) PW_SERVER_PLAIN <> 0 ->
  base64_decode (STR tok)
  = Some (String c authzid ++ String NUL (authcid ++ String NUL password)) ->
  nul_free (String c authzid) = true -> nul_free authcid = true ->
  trace (snd (do_auth_plain m (Some tok) w))
  = (trace w ++ Ev_od_clear_text_auth (String c authzid) authcid
       :: fst (od_do_clear_text_auth_logged (Some (String c authzid)) (Some authcid)))%list.
Proof.
  intros He Hd Hz Hn. apply mask_enabled_true in He.
  unfold do_auth_plain. run_monad. rewrite He. project. rewrite Hd.
  cbn [String.append]. cbv beta iota.
  assert (Hc : Ascii.eqb c NUL = false).
  { pose proof Hz as Hz'. split_forallb Hz'. exact Hc. }
  rewrite Hc. cbv iota zeta.
  change (String c (authzid ++ String NUL (authcid ++ String NUL password)))
    with (String c authzid ++ String NUL (authcid ++ String NUL password)).
  rewrite c_string_at_start, (STR_app_NUL _ _ Hz).
  change (0 + (String.length (String c authzid) + 1))%nat
    with (String.length (String c authzid) + 1)%nat.
  rewrite c_string_at_past, (STR_app_NUL _ _ Hn).
  destruct (returned (snd (od_do_clear_text_auth_logged (Some (String c authzid))
                                                        (Some authcid))));
    project; rewrite <- ?app_assoc; reflexivity.
Qed.

(** *** CRAM-MD5: how the response is split *)





(* ------------------------------------------------------------------ *)
(** ** Further facts: LOGIN *)

Lemma new_events_app w w' evs :
  trace w' = (trace w ++ evs)%list -> new_events w w' = evs.
Proof.
  intros H. unfold new_events. rewrite H, skipn_app, skipn_all, Nat.sub_diag.
  reflexivity.
Qed.

Lemma new_events_nil w w' : trace w' = trace w -> new_events w w' = [].
Proof. intros H. unfold new_events. rewrite H. apply skipn_all. Qed.

(** LOGIN, both lines read and decoded: the directory is asked about the
    C strings at the start of the two decoded values; behind this call
    the event log has what the directory helper logs.  The helper's
    answer decides, and where the helper returned without a value, what
    the handler reads in its place.  On [eAOD_no_error] the reply is null
    and the identity is that user name with the method as the client
    spelled it; on anything else the reply is the 535 one, logged, and
    the identity members are untouched; the line behind the two is left
    for the next command. *)
Theorem do_auth_login_verdict (w : world) (in_method l1 l2 : string)
    (rest : list string) (vs_user vs_pwd : string) :
  Z.land (smtpd_pw_server_sasl_opts w) PW_SERVER_LOGIN <> 0 ->
  input w = l1 :: l2 :: rest ->
  STR l1 <> "*" -> base64_decode l1 = Some vs_user ->
  STR l2 <> "*" -> base64_decode l2 = Some vs_pwd ->
  let r := do_auth_login in_method w in
  let dialog := ([ Ev_chat_reply ("334 " ++ STR (base64_encode "Username:"));
                   Ev_chat_query l1;
                   Ev_chat_reply ("334 " ++ STR (base64_encode "Password:"));
                   Ev_chat_query l2;
                   Ev_od_clear_text_auth (STR vs_user) (STR vs_pwd) ]
                 ++ fst (od_do_clear_text_auth_logged (Some (STR vs_user))
                                                      (Some (STR vs_pwd))))%list in
  input (snd r) = rest
  /\ match returned (od_do_clear_text_auth (STR vs_user) (STR vs_pwd)) with
     | eAOD_no_error =>
         fst r = Ret None
         /\ trace (snd r) = (trace w ++ dialog)%list
         /\ sasl_username (state (snd r)) = Some (STR vs_user)
         /\ sasl_method (state (snd r)) = Some (STR in_method)
     | _ =>
         fst r = Ret (Some "535 Error: authentication failed")
         /\ trace (snd r)
            = (trace w ++ dialog ++ [Ev_msg_error "Authentication failed"])%list
         /\ keeps_identity w (snd r)
     end.
Proof.
  intros He Hi H1 Hd1 H2 Hd2 r dialog. subst r dialog.
  apply mask_enabled_true in He.
  apply strcmp_not_star in H1. apply strcmp_not_star in H2.
  unfold do_auth_login. run_monad. rewrite He. project. rewrite Hi. project.
  rewrite H1, Hd1. project. rewrite H2, Hd2. project.
  unfold mystrdup, od_do_clear_text_auth. rewrite !STR_idem.
  destruct (returned (snd (od_do_clear_text_auth_logged (Some (STR vs_user))
                                                        (Some (STR vs_pwd)))));
    project; rewrite <- ?app_assoc; cbn [app]; unfold keeps_identity; project;
    repeat split; reflexivity.
Qed.

(** LOGIN, a line that is no base64 text: after the user name prompt the
    reply is "501 ... malformed initial response" and the password prompt
    is never sent; after the password prompt it is "501 ... malformed
    response".  Either way the directory is not asked. *)
Theorem do_auth_login_malformed (w : world) (in_method l1 : string)
    (rest : list string) :
  Z.land (smtpd_pw_server_sasl_opts w) PW_SERVER_LOGIN <> 0 ->
  input w = l1 :: rest ->
  STR l1 <> "*" ->
  let r := do_auth_login in_method w in
  let first := [ Ev_chat_reply ("334 " ++ STR (base64_encode "Username:"));
                 Ev_chat_query l1 ] in
  (base64_decode l1 = None ->
   r = (Ret (Some "501 Authentication failed: malformed initial response"),
        after_line w l1 rest
          (first ++ [Ev_msg_error "Malformed response to: AUTH LOGIN"])))
  /\ (forall vs_user l2 rest',
        base64_decode l1 = Some vs_user -> rest = l2 :: rest' ->
        STR l2 <> "*" -> base64_decode l2 = None ->
        r = (Ret (Some "501 Authentication failed: malformed response"),
             after_line w l2 rest'
               (first ++ [ Ev_chat_reply ("334 " ++ STR (base64_encode "Password:"));
                           Ev_chat_query l2;
                           Ev_msg_error "Malformed response to: AUTH LOGIN" ]))).
Proof.
  intros He Hi H1 r first. subst r first.
  apply mask_enabled_true in He. apply strcmp_not_star in H1.
  unfold do_auth_login, after_line. run_monad. rewrite He. project. rewrite Hi. project.
  rewrite H1. split.
  - intros Hd. rewrite Hd. settle.
  - intros vs_user l2 rest' Hd -> H2 Hd2. apply strcmp_not_star in H2.
    rewrite Hd. project. rewrite H2, Hd2. settle.
Qed.

(** LOGIN, the abort token: in answer to either prompt it ends the
    attempt with "501 Authentication aborted"; the token is not decoded,
    the directory is not asked, the identity members are untouched. *)
Theorem do_auth_login_abort (w : world) (in_method l1 : string) (rest : list string) :
  Z.land (smtpd_pw_server_sasl_opts w) PW_SERVER_LOGIN <> 0 ->
  input w = l1 :: rest ->
  let r := do_auth_login in_method w in
  (STR l1 = "*" \/
   (exists vs_user l2 rest',
       STR l1 <> "*" /\ base64_decode l1 = Some vs_user
       /\ rest = l2 :: rest' /\ STR l2 = "*")) ->
  fst r = Ret (Some "501 Authentication aborted")
  /\ keeps_identity w (snd r)
  /\ forall e, In e (new_events w (snd r)) -> is_backend e = false.
Proof.
  intros He Hi r Hcase. subst r. apply mask_enabled_true in He.
  destruct Hcase as [H1|(vs_user & l2 & rest' & H1 & Hd & -> & H2)].
  - rewrite (do_auth_login_abort_first in_method l1 rest w He Hi H1).
    split; [reflexivity|]. split; [split; reflexivity|].
    intros e. unfold new_events, after_line. cbn [snd trace].
    rewrite skipn_app, skipn_all, Nat.sub_diag. simpl.
    intros [<-|[<-|[<-|[]]]]; reflexivity.
  - rewrite (do_auth_login_abort_second in_method l1 l2 rest' vs_user w He Hi H1 Hd H2).
    split; [reflexivity|]. split; [split; reflexivity|].
    intros e. unfold new_events, after_line. cbn [snd trace].
    rewrite skipn_app, skipn_all, Nat.sub_diag. simpl.
    intros [<-|[<-|[<-|[<-|[<-|[]]]]]]; reflexivity.
Qed.

(* ------------------------------------------------------------------ *)
(** ** Further facts: PLAIN and CRAM-MD5 *)

Ltac new_events_explicit :=
  unfold new_events; project; rewrite <- ?app_assoc; cbn [app];
  first [ rewrite skipn_app, skipn_all, Nat.sub_diag; cbn [skipn app]
        | rewrite skipn_all ].

Ltac each_event He :=
  cbn [In] in He;
  repeat (destruct He as [<-|He]; [try reflexivity; try discriminate|]);
  try contradiction.

(** An event of a helper's log is a log entry. *)
Ltac log_member He :=
  let Hl := fresh "Hl" in
  match type of He with
  | In ?e (fst (od_do_clear_text_auth_logged ?a ?b)) =>
      pose proof (proj1 (Forall_forall _ _) (od_do_clear_text_auth_logs a b) e He) as Hl
  | In ?e (fst (od_validate_response_logged ?a ?b ?c ?d)) =>
      pose proof (proj1 (Forall_forall _ _) (od_validate_response_logs a b c d) e He) as Hl
  end;
  match type of He with
  | In ?e _ => destruct e; try discriminate Hl; try reflexivity
  end.

(** A property of events that holds of all log entries and of the
    events listed. *)
Ltac forall_events :=
  repeat first
    [ apply Forall_nil
    | apply Forall_cons; [first [exact I | reflexivity]|]
    | apply Forall_app; split
    | eapply Forall_impl; [|apply od_do_clear_text_auth_logs];
      intros [] ?Hx; first [exact I | reflexivity | discriminate]
    | eapply Forall_impl; [|apply od_validate_response_logs];
      intros [] ?Hx; first [exact I | reflexivity | discriminate] ].

Ltac settle_event He :=
  lazymatch type of He with
  | False => destruct He
  | _ \/ _ => destruct He as [He|He]; [settle_event He | settle_event He]
  | In _ (_ ++ _) => apply in_app_or in He; settle_event He
  | In _ (_ :: _) => cbn [In] in He; settle_event He
  | In _ [] => destruct He
  | In _ (fst _) => log_member He
  | _ = _ => subst; first [reflexivity | discriminate | idtac]
  end.

(** PLAIN with an initial response needs no round trip: whatever the
    response is, nothing is sent to the client, no line is read, and the
    line buffer and the pending lines stay as they are. *)
Theorem do_auth_plain_initial_response_no_round_trip (w : world)
    (in_method resp : string) :
  let r := do_auth_plain in_method (Some resp) w in
  input (snd r) = input w
  /\ buffer (state (snd r)) = buffer (state w)
  /\ forall e, In e (new_events w (snd r)) -> is_transport e = false.
Proof.
  intros r. subst r. unfold do_auth_plain. run_monad.
  crunch; (split; [reflexivity|]); (split; [reflexivity|]);
    intros ?ev He; revert He; new_events_explicit; intros He; settle_event He.
Qed.

Lemma cstr_at_behind_end v : cstr_at v (String.length v + 1) = None.
Proof.
  unfold cstr_at.
  replace (String.length v + 1 <=? String.length v)%nat with false; [reflexivity|].
  symmetry. apply Nat.leb_gt. lia.
Qed.

(** PLAIN, a payload that is not empty and holds no NUL byte: the whole
    payload is taken for the user name, and the password is looked for
    behind the terminator of the decoded data.  The directory is asked
    about the payload and the bytes that happen to lie there, which the
    client did not send, and its answer decides the reply. *)
Theorem do_auth_plain_without_separator (w : world) (in_method resp payload : string) :
  Z.land (smtpd_pw_server_sasl_opts w) PW_SERVER_PLAIN <> 0 ->
  base64_decode (STR resp) = Some payload ->
  nul_free payload = true ->
  payload <> "" ->
  let r := do_auth_plain in_method (Some resp) w in
  let behind := STR (uninitialized payload) in
  trace (snd r)
  = (trace w ++ Ev_od_clear_text_auth payload behind
       :: fst (od_do_clear_text_auth_logged (Some payload) (Some behind)))%list
  /\ fst r = match returned (od_do_clear_text_auth payload behind) with
             | eAOD_no_error => Ret None
             | _ => Ret (Some "535 Error: authentication failed")
             end.
Proof.
  intros He Hd Hn Hne r behind. subst r behind. apply mask_enabled_true in He.
  unfold do_auth_plain. run_monad. rewrite He. project. rewrite Hd. cbv beta iota.
  destruct payload as [|c payload]; [contradiction|].
  assert (Hc : Ascii.eqb c NUL = false).
  { pose proof Hn as Hn'. split_forallb Hn'. exact Hc. }
  rewrite Hc. cbv iota zeta. rewrite c_string_at_start, (nul_free_STR _ Hn).
  change (0 + (String.length (String c payload) + 1))%nat
    with (String.length (String c payload) + 1)%nat.
  rewrite c_string_at_behind. unfold od_do_clear_text_auth.
  destruct (returned (snd (od_do_clear_text_auth_logged
                             (Some (String c payload))
                             (Some (STR (uninitialized (String c payload)))))));
    project; rewrite <- ?app_assoc; cbn [app]; split; reflexivity.
Qed.


(** PLAIN without an initial response: once the bare 334 is sent and the
    client's line is in, the attempt goes on exactly as if the line had
    come as the initial response of the AUTH command. *)
Theorem do_auth_plain_challenge_path (w : world) (in_method l : string)
    (rest : list string) :
  Z.land (smtpd_pw_server_sasl_opts w) PW_SERVER_PLAIN <> 0 ->
  input w = l :: rest ->
  nul_free l = true ->
  do_auth_plain in_method None w
  = do_auth_plain in_method (Some l)
      (after_line w l rest [Ev_chat_reply "334"; Ev_chat_query l]).
Proof.
  intros He Hi Hn. apply mask_enabled_true in He.
  unfold do_auth_plain, after_line. run_monad. project. rewrite He. project.
  rewrite Hi. project. rewrite (nul_free_STR _ Hn), <- !app_assoc. reflexivity.
Qed.

(* ------------------------------------------------------------------ *)
(** ** Further facts: the password-server path as a whole *)

(** Whatever the method, the response and the client's lines: a reply
    that [smtpd_pw_server_authenticate] returns is one of six texts, all
    with a 5xx code. *)
Theorem pw_server_reply_is_listed (w : world) (in_method : string)
    (in_resp : option string) :
  match fst (smtpd_pw_server_authenticate in_method in_resp w) with
  | Ret (Some reply) => In reply pw_server_replies
  | _ => True
  end.
Proof.
  unfold smtpd_pw_server_authenticate, do_auth_login, do_auth_plain, do_auth_cram_md5.
  run_monad. crunch; simpl; auto 10.
Qed.

(** The password-server path never writes a final reply to the client
    itself: everything it sends is a 334 continuation. *)
Theorem pw_server_sends_only_continuations (w : world) (in_method : string)
    (in_resp : option string) :
  Forall (fun e => match e with
                   | Ev_chat_reply text => String.prefix "334" text = true
                   | _ => True
                   end)
         (new_events w (snd (smtpd_pw_server_authenticate in_method in_resp w))).
Proof.
  unfold smtpd_pw_server_authenticate, do_auth_login, do_auth_plain, do_auth_cram_md5.
  run_monad. crunch; new_events_explicit; forall_events.
Qed.

(** It reads at most two lines, and what it leaves of the client's lines
    is what follows the lines it read. *)
Theorem pw_server_reads_at_most_two_lines (w : world) (in_method : string)
    (in_resp : option string) :
  exists k, (k <= 2)%nat
            /\ input (snd (smtpd_pw_server_authenticate in_method in_resp w))
               = skipn k (input w).
Proof.
  unfold smtpd_pw_server_authenticate, do_auth_login, do_auth_plain, do_auth_cram_md5.
  run_monad. crunch;
    repeat match goal with
           | H : input w = _ |- _ => rewrite H; clear H
           end;
    first [ exists 0%nat; split; [lia|reflexivity]
          | exists 1%nat; split; [lia|reflexivity]
          | exists 2%nat; split; [lia|reflexivity] ].
Qed.

Lemma cstr_at_is_c_string v off s : cstr_at v off = Some s -> STR s = s.
Proof.
  unfold cstr_at. destruct (off <=? String.length v)%nat; [|discriminate].
  intros H. inversion H. apply STR_idem.
Qed.

(** No success without a call of the directory: when the null reply
    comes back, the stored user name is one about which the directory was
    asked during this very attempt.  Either it answered [eAOD_no_error],
    by password or by challenge and response, or the password check
    returned without a value and the handler read [eAOD_no_error] in its
    place.  The stored method is the method name as the client spelled
    it. *)
Theorem pw_server_success_is_verified (w : world) (in_method : string)
    (in_resp : option string) :
  match smtpd_pw_server_authenticate in_method in_resp w with
  | (Ret None, w') =>
      sasl_method (state w') = Some (STR in_method)
      /\ exists u,
          sasl_username (state w') = Some u
          /\ ((exists p,
                  In (Ev_od_clear_text_auth u p) (new_events w w')
                  /\ (od_do_clear_text_auth u p = Some eAOD_no_error
                      \/ (od_do_clear_text_auth u p = None
                          /\ indeterminate_int = eAOD_no_error)))
              \/ (exists chal resp ty,
                     od_validate_response u chal resp ty = Some eAOD_no_error
                     /\ In (Ev_od_validate_response u chal resp ty) (new_events w w')))
  | _ => True
  end.
Proof.
  unfold smtpd_pw_server_authenticate, do_auth_login, do_auth_plain, do_auth_cram_md5.
  run_monad. crunch; try exact I; unfold mystrdup, c_string_at in *;
    (split; [reflexivity|]); rewrite ?STR_idem;
    eexists; (split; [reflexivity|]);
    first [ left; eexists; split;
            [ new_events_explicit; cbn [In]; auto 10
            | match goal with
              | H : returned ?x = eAOD_no_error |- _ =>
                  unfold returned in H; unfold od_do_clear_text_auth;
                  destruct x; [left; congruence | right; split; [reflexivity|exact H]]
              end ]
          | right; do 3 eexists; split;
            [ unfold od_validate_response; eassumption
            | new_events_explicit; cbn [In]; auto 10 ] ].
Qed.

(** One identity per session: right after an attempt that returned the
    null reply, any further call of [smtpd_pw_server_authenticate] ends
    in the panic of its sanity check, and the world stays as it was. *)
Theorem pw_server_second_success_impossible (w w' : world)
    (in_method again : string) (in_resp resp' : option string) :
  smtpd_pw_server_authenticate in_method in_resp w = (Ret None, w') ->
  smtpd_pw_server_authenticate again resp' w'
  = (Abend (Panic "smtpd_pw_server_authenticate: already authenticated"), w').
Proof.
  intros H. pose proof (smtpd_pw_server_authenticate_post in_method in_resp w) as Hp.
  rewrite H in Hp. destruct Hp as [Hu Hm].
  unfold smtpd_pw_server_authenticate. run_monad. rewrite Hu. reflexivity.
Qed.

(** After [smtpd_sasl_logout] the sanity check is passed again: from any
    state, a logout followed by [smtpd_pw_server_authenticate] does not
    panic. *)
Theorem logout_allows_authentication (w : world) (in_method : string)
    (in_resp : option string) :
  match fst (smtpd_pw_server_authenticate in_method in_resp
               (snd (smtpd_sasl_logout w))) with
  | Abend (Panic _) => False
  | _ => True
  end.
Proof.
  unfold smtpd_pw_server_authenticate, do_auth_login, do_auth_plain, do_auth_cram_md5,
    smtpd_sasl_logout.
  run_monad. crunch; try exact I;
    match goal with
    | H : (_ || _) = true |- _ =>
        repeat match goal with E : _ = None |- _ => rewrite E in H end;
        cbn in H; discriminate H
    end.
Qed.

(* ------------------------------------------------------------------ *)
(** ** Further facts: the life cycle of a connection *)

(** [smtpd_sasl_logout] is about the identity only: reply buffer,
    mechanism list, sender and server context stay, the process-wide
    variables and the client's lines stay, and nothing but user name and
    method is released. *)
Theorem logout_keeps_context (w : world) :
  let r := smtpd_sasl_logout w in
  fst r = Ret tt
  /\ same_context (state w) (state (snd r))
  /\ input (snd r) = input w
  /\ smtpd_sasl_impl (snd r) = smtpd_sasl_impl w
  /\ smtpd_pw_server_sasl_opts (snd r) = smtpd_pw_server_sasl_opts w
  /\ Forall (fun e => e = Ev_free R_sasl_username \/ e = Ev_free R_sasl_method)
            (new_events w (snd r)).
Proof.
  intros r. subst r. unfold smtpd_sasl_logout, same_context. run_monad.
  crunch; (split; [reflexivity|]); (split; [repeat split; reflexivity|]);
    (repeat (split; [reflexivity|])); new_events_explicit;
    repeat first [ apply Forall_nil
                 | apply Forall_cons; [first [left; reflexivity | right; reflexivity]|] ].
Qed.

(** [smtpd_sasl_disconnect] from any state, authenticated or not: it
    returns, every resource that was held is released exactly once and
    no other, all members are null afterwards, and a second call finds
    nothing to do. *)
Theorem disconnect_releases_everything (w : world) :
  let r := smtpd_sasl_disconnect w in
  fst r = Ret tt
  /\ all_released (state (snd r))
  /\ (exists evs, trace (snd r) = (trace w ++ evs)%list
                  /\ forall res, frees res evs
                                 = if held res (state w) then 1%nat else 0%nat)
  /\ smtpd_sasl_disconnect (snd r) = (Ret tt, snd r).
Proof.
  destruct w as [[buf na cl rep ml un me se srv] impl opts inp tr].
  unfold smtpd_sasl_disconnect, all_released. run_monad.
  destruct rep, ml, un, me, se, srv; cbn;
    (split; [reflexivity|]); (split; [intros []; reflexivity|]);
    (split; [|reflexivity]);
    repeat rewrite <- app_assoc; cbn;
    try (eexists; split; [reflexivity|intros []; reflexivity]);
    (exists []; split; [now rewrite app_nil_r|intros []; reflexivity]).
Qed.

(** A connection that [smtpd_sasl_connect] has set up holds a reply
    buffer, a copy of the plug-in's mechanism list and a server context,
    and neither identity nor sender; [smtpd_sasl_disconnect] then
    releases exactly these three, in this order. *)
Theorem connect_then_disconnect (w w1 : world) (sasl_opts_name sasl_opts_val : string) :
  smtpd_sasl_connect sasl_opts_name sasl_opts_val w = (Ret tt, w1) ->
  (forall res, held res (state w1)
               = match res with
                 | R_sasl_reply | R_sasl_mechanism_list | R_sasl_server => true
                 | _ => false
                 end)
  /\ trace w1 = trace w
  /\ new_events w1 (snd (smtpd_sasl_disconnect w1))
     = [Ev_free R_sasl_reply; Ev_free R_sasl_mechanism_list; Ev_free R_sasl_server].
Proof.
  intros H.
  assert (Hw1 : exists srv ml,
             state w1 = mkState (buffer (state w)) (namaddr (state w)) (client (state w))
                                (Some "") (Some ml) None None None (Some srv)
             /\ trace w1 = trace w).
  { revert H. unfold smtpd_sasl_connect. run_monad.
    crunch; intros H; inversion H; subst; clear H; project;
      do 2 eexists; split; reflexivity. }
  destruct Hw1 as (srv & ml & Hs & Ht).
  destruct w1 as [st impl opts inp tr]. cbn [state trace] in Hs, Ht. subst st tr.
  split; [intros []; reflexivity|]. split; [reflexivity|].
  unfold smtpd_sasl_disconnect. run_monad. new_events_explicit. reflexivity.
Qed.

(* ------------------------------------------------------------------ *)
(** ** Further facts: the generic dialog *)

Lemma backend_events_of w w' evs :
  trace w' = (trace w ++ evs)%list ->
  filter is_backend (new_events w w') = filter is_backend evs.
Proof. intros H. now rewrite (new_events_app _ _ _ H). Qed.

(** The loop hands every line it reads to the plug-in, in order, except
    an abort token, which ends it. *)
Lemma xsasl_loop_feeds m lines :
  forall status w,
    input w = lines ->
    exists fed evs,
      trace (snd (xsasl_loop m lines status w)) = (trace w ++ evs)%list
      /\ filter is_backend evs = next_events fed
      /\ Forall (fun l => STR l <> "*") fed
      /\ consumed lines fed (input (snd (xsasl_loop m lines status w))).
Proof.
  unfold consumed.
  induction lines as [|l rest IH]; intros status w Hin.
  - destruct status; cbn [xsasl_loop]; run_monad; project.
    + exists [], [Ev_chat_reply ("334 " ++ reply_text (state w))].
      repeat split; [constructor|]. left. now rewrite Hin.
    + exists [], []. rewrite app_nil_r.
      repeat split; [constructor|]. left. now rewrite Hin.
    + exists [], []. rewrite app_nil_r.
      repeat split; [constructor|]. left. now rewrite Hin.
  - destruct status; cbn [xsasl_loop]; unfold xsasl_step; run_monad; project;
      [| exists [], []; rewrite app_nil_r;
         repeat split; [constructor|]; left; now rewrite Hin ..].
    destruct (strcmp l "*" =? 0) eqn:Hstar.
    { apply strcmp_star in Hstar. exists []. eexists. project.
      rewrite <- !app_assoc. cbn [app].
      split; [reflexivity|]. split; [reflexivity|]. split; [constructor|].
      right. exists l. split; [exact Hstar|reflexivity]. }
    apply strcmp_not_star in Hstar. project.
    destruct (sasl_server (state w)) as [srv|];
      [destruct (sasl_reply (state w)) as [rep|]|]; project.
    + destruct (xsasl_server_next srv (STR l)) as [[status' reply] srv'].
      project.
      match goal with
      | |- context [xsasl_loop m rest status' ?w3] =>
          destruct (IH status' w3 eq_refl) as (fed & evs & Ht & Hf & Hn & Hl)
      end.
      exists (l :: fed).
      exists ([ Ev_chat_reply ("334 " ++ reply_text (state w)); Ev_chat_query l;
                Ev_xsasl_next (STR l) ] ++ evs)%list.
      split; [rewrite Ht; project; rewrite <- !app_assoc; reflexivity|].
      split; [cbn [app filter is_backend next_events map];
              fold (next_events fed); now rewrite Hf|].
      split; [now constructor|].
      destruct Hl as [Hl|(l' & Hs & Hl)].
      * left. cbn [app]. f_equal. exact Hl.
      * right. exists l'. split; [exact Hs|]. cbn [app]. f_equal. exact Hl.
    + exists [l]. eexists. rewrite <- !app_assoc. cbn [app].
      split; [reflexivity|]. split; [reflexivity|].
      split; [now repeat constructor|]. left. reflexivity.
    + exists [l]. eexists. rewrite <- !app_assoc. cbn [app].
      split; [reflexivity|]. split; [reflexivity|].
      split; [now repeat constructor|]. left. reflexivity.
Qed.

(** The generic dialog and the plug-in: in one attempt the plug-in sees
    [xsasl_server_first], then [xsasl_server_next] once for every line
    read, in the order of arrival and never for an abort token, and at
    the very end possibly the look-up of the user name.  The lines that
    are left for the next command are those behind the lines fed, or
    behind the abort token that ended the attempt. *)
Theorem generic_dialog_feeds_lines_in_order (w : world) (sasl_method : string)
    (init_response : option string) :
  let res := smtpd_sasl_authenticate sasl_method init_response w in
  exists fed tail,
    filter is_backend (new_events w (snd res))
    = (Ev_xsasl_first sasl_method init_response :: next_events fed ++ tail)%list
    /\ (tail = [] \/ tail = [Ev_xsasl_get_username])
    /\ Forall (fun l => STR l <> "*") fed
    /\ consumed (input w) fed (input (snd res)).
Proof.
  intros res. subst res.
  unfold smtpd_sasl_authenticate, xsasl_step. run_monad. project.
  assert (Hnone : forall w', trace w' = (trace w ++ [Ev_xsasl_first sasl_method init_response])%list ->
                             input w' = input w ->
            exists fed tail,
              filter is_backend (new_events w w')
              = (Ev_xsasl_first sasl_method init_response :: next_events fed ++ tail)%list
              /\ (tail = [] \/ tail = [Ev_xsasl_get_username])
              /\ Forall (fun l => STR l <> "*") fed
              /\ consumed (input w) fed (input w')).
  { intros w' Ht Hi. exists [], [].
    rewrite (backend_events_of _ _ _ Ht), Hi.
    repeat split; auto. left. reflexivity. }
  destruct (sasl_server (state w)) as [srv|];
    [destruct (sasl_reply (state w)) as [rep|]|];
    [|apply Hnone; reflexivity..].
  clear Hnone. project.
  destruct (xsasl_server_first srv sasl_method init_response) as [[status reply] srv'].
  project.
  match goal with
  | |- context [xsasl_loop sasl_method ?ls ?st ?w1] =>
      destruct (xsasl_loop_feeds sasl_method ls st w1 eq_refl)
        as (fed & evs & Ht & Hf & Hn & Hl);
      destruct (xsasl_loop sasl_method ls st w1) as [[[v|status'']|e] w2]
  end; cbn [fst snd] in Ht, Hl; cbn [trace] in Ht.
  - exists fed, [].
    rewrite (backend_events_of _ _ (Ev_xsasl_first sasl_method init_response :: evs))
      by (cbn [snd]; rewrite Ht, <- !app_assoc; reflexivity).
    cbn [filter is_backend]. rewrite Hf, app_nil_r. auto.
  - destruct status''; crunch;
      match goal with
      | |- context [Ev_xsasl_get_username] =>
          exists fed, [Ev_xsasl_get_username];
          rewrite (backend_events_of _ _
                     (Ev_xsasl_first sasl_method init_response
                        :: evs ++ [Ev_chat_reply "235 2.7.0 Authentication successful";
                                   Ev_xsasl_get_username]))
            by (project; rewrite Ht, <- !app_assoc; reflexivity)
      | |- context [Ev_msg_warn ?t] =>
          exists fed, [];
          rewrite (backend_events_of _ _
                     (Ev_xsasl_first sasl_method init_response
                        :: evs ++ [Ev_msg_warn t;
                                   Ev_chat_reply ("535 5.7.8 Error: authentication failed: "
                                                  ++ reply_text (state w2))]))
            by (project; rewrite Ht, <- !app_assoc; reflexivity)
      end;
      cbn [filter is_backend]; rewrite filter_app, Hf; cbn [filter is_backend];
      rewrite ?app_nil_r; auto.
  - exists fed, [].
    rewrite (backend_events_of _ _ (Ev_xsasl_first sasl_method init_response :: evs))
      by (cbn [snd]; rewrite Ht, <- !app_assoc; reflexivity).
    cbn [filter is_backend]. rewrite Hf, app_nil_r. auto.
Qed.

(** The value of [smtpd_sasl_authenticate] is 0 or -1.  With 0 both
    identity members are set and hold printable characters only; with -1,
    and when the routine does not return at all, they are what they
    were. *)
Theorem smtpd_sasl_authenticate_result (w : world) (sasl_method : string)
    (init_response : option string) :
  match smtpd_sasl_authenticate sasl_method init_response w with
  | (Ret v, w') => (v = 0 /\ sanitized w') \/ (v = -1 /\ keeps_identity w w')
  | (Abend _, w') => keeps_identity w w'
  end.
Proof. apply smtpd_sasl_authenticate_post. Qed.

(** The abort token in any round of the generic dialog: the loop is left
    with -1, the plug-in is not called again and its context stays as it
    is, and the identity members are untouched. *)
Theorem generic_abort_in_any_round (w : world) (sasl_method l : string)
    (rest : list string) :
  STR l = "*" ->
  let res := xsasl_loop sasl_method (l :: rest) XSASL_AUTH_MORE w in
  fst res = Ret (Returned (-1))
  /\ input (snd res) = rest
  /\ sasl_server (state (snd res)) = sasl_server (state w)
  /\ keeps_identity w (snd res)
  /\ Forall (fun e => is_backend e = false) (new_events w (snd res))
  /\ In (Ev_chat_reply "501 5.7.0 Authentication aborted") (new_events w (snd res)).
Proof.
  intros H res. subst res. rewrite (xsasl_loop_abort sasl_method l rest w H).
  unfold after_line, keeps_identity. project.
  do 3 (split; [reflexivity|]). split; [split; reflexivity|].
  new_events_explicit. split; [repeat constructor|]. cbn [In]. auto 10.
Qed.

Lemma xsasl_loop_final m lines status w :
  status <> XSASL_AUTH_MORE ->
  xsasl_loop m lines status w = (Ret (Fell_out status), w).
Proof. intros H. destruct lines, status; try reflexivity; contradiction. Qed.

(** The plug-in settles the attempt with its first answer: no line is
    read.  On DONE the client gets the 235 reply before the user name is
    looked up, so a plug-in that then has no user name makes the process
    panic after success was announced; otherwise the identity is the
    plug-in's user name and the method, both made printable.  On any
    other status the reply is the 535 one with the plug-in's diagnostic
    text, the value is -1 and the identity members are untouched. *)
Theorem generic_first_answer_final (w : world) (method : string)
    (init_response : option string) (srv srv' : XSASL_SERVER)
    (rep diag : string) (status : xsasl_status) :
  sasl_server (state w) = Some srv ->
  sasl_reply (state w) = Some rep ->
  xsasl_server_first srv method init_response = (status, diag, srv') ->
  status <> XSASL_AUTH_MORE ->
  let res := smtpd_sasl_authenticate method init_response w in
  input (snd res) = input w
  /\ sasl_server (state (snd res)) = Some srv'
  /\ match status, xsasl_server_get_username srv' with
     | XSASL_AUTH_DONE, Some user =>
         fst res = Ret 0
         /\ new_events w (snd res)
            = [ Ev_xsasl_first method init_response;
                Ev_chat_reply "235 2.7.0 Authentication successful";
                Ev_xsasl_get_username ]
         /\ sasl_username (state (snd res)) = Some (printable (STR user) "?")
         /\ sasl_method (state (snd res)) = Some (printable (STR method) "?")
     | XSASL_AUTH_DONE, None =>
         fst res = Abend (Panic "cannot look up the authenticated SASL username")
         /\ new_events w (snd res)
            = [ Ev_xsasl_first method init_response;
                Ev_chat_reply "235 2.7.0 Authentication successful";
                Ev_xsasl_get_username ]
         /\ keeps_identity w (snd res)
     | _, _ =>
         fst res = Ret (-1)
         /\ new_events w (snd res)
            = [ Ev_xsasl_first method init_response;
                Ev_msg_warn (namaddr (state w) ++ ": SASL " ++ method
                             ++ " authentication failed: " ++ STR diag);
                Ev_chat_reply ("535 5.7.8 Error: authentication failed: " ++ STR diag) ]
         /\ keeps_identity w (snd res)
     end.
Proof.
  intros Hs Hr Hf Hst res. subst res.
  unfold smtpd_sasl_authenticate, xsasl_step. run_monad. project.
  rewrite Hs, Hr. project. rewrite Hf. project.
  rewrite (xsasl_loop_final _ _ _ _ Hst).
  unfold keeps_identity, reply_text, mystrdup.
  destruct status; [contradiction| |]; project.
  - destruct (xsasl_server_get_username srv'); project;
      (split; [reflexivity|]); (split; [reflexivity|]); (split; [reflexivity|]);
      (split; [new_events_explicit; reflexivity|]); split; reflexivity.
  - (split; [reflexivity|]); (split; [reflexivity|]).
    destruct (xsasl_server_get_username srv');
      (split; [reflexivity|]); (split; [new_events_explicit; reflexivity|]);
      split; reflexivity.
Qed.

(* ------------------------------------------------------------------ *)
(** ** Further facts: the directory helpers *)

(** [od_do_clear_text_auth] answers [eAOD_no_error] exactly when the
    session opens, user name and password are CFStrings, the user has a
    record and [ODRecordVerifyPassword] accepts the password for it.  Its
    value is undefined (the [return;] without a value) exactly when the
    session opens and the user has a record, but the password is no
    CFString. *)
Theorem od_do_clear_text_auth_result (in_user in_passwd : string) :
  (od_do_clear_text_auth in_user in_passwd = Some eAOD_no_error
   <-> ODSessionCreate = true
       /\ CFStringCreateWithCString in_user = true
       /\ CFStringCreateWithCString in_passwd = true
       /\ exists rec, ODNodeCopyRecord in_user = Some rec
                      /\ ODRecordVerifyPassword rec in_passwd = true)
  /\ (od_do_clear_text_auth in_user in_passwd = None
      <-> ODSessionCreate = true
          /\ CFStringCreateWithCString in_user = true
          /\ CFStringCreateWithCString in_passwd = false
          /\ exists rec, ODNodeCopyRecord in_user = Some rec).
Proof.
  unfold od_do_clear_text_auth, od_do_clear_text_auth_logged, od_open_logged,
    od_get_user_record_logged.
  destruct ODSessionCreate, (CFStringCreateWithCString in_user),
    (CFStringCreateWithCString in_passwd),
    (ODNodeCopyRecord in_user) as [rec|]; cbn;
    try destruct (ODRecordVerifyPassword rec in_passwd) eqn:E;
    (split; split);
    try (intros H; discriminate H);
    try (intros (H1 & H2 & H3 & rec' & H4); try discriminate; fail);
    try (intros (H1 & H2 & H3 & rec' & H4 & H5); try discriminate;
         inversion H4; subst; congruence);
    intros _; repeat split; eauto.
Qed.

(** [od_validate_response].  With any of its four arguments null it logs
    one error and answers [eAOD_param_error] without touching the
    directory.  With all four there, it answers [eAOD_no_error] exactly
    when the session opens, user name, challenge and response are
    CFStrings, the user has a record and [ODRecordVerifyPasswordExtended]
    accepts the buffer of user name, challenge and response, in this
    order, for it; and the authentication type plays no part beyond
    being there: any other one gives the same log and the same answer. *)
Theorem od_validate_response_result (in_user in_chal in_resp in_auth_type : option string) :
  let res := od_validate_response_logged in_user in_chal in_resp in_auth_type in
  match in_user, in_chal, in_resp, in_auth_type with
  | Some u, Some c, Some r, Some _ =>
      (snd res = Some eAOD_no_error
       <-> ODSessionCreate = true
           /\ CFStringCreateWithCString u = true
           /\ CFStringCreateWithCString c = true
           /\ CFStringCreateWithCString r = true
           /\ exists rec, ODNodeCopyRecord u = Some rec
                          /\ ODRecordVerifyPasswordExtended rec [u; c; r] = true)
      /\ forall other_type,
           od_validate_response_logged (Some u) (Some c) (Some r) (Some other_type) = res
  | _, _, _, _ =>
      res = ([Ev_msg_error "AOD: Invalid argument passed to validate response"],
             Some eAOD_param_error)
  end.
Proof.
  intros res. subst res.
  destruct in_user as [u|], in_chal as [c|], in_resp as [r|], in_auth_type as [t|];
    try reflexivity.
  split; [|reflexivity].
  unfold od_validate_response_logged, od_open_logged, od_get_user_record_logged.
  destruct ODSessionCreate, (CFStringCreateWithCString u),
    (CFStringCreateWithCString c), (CFStringCreateWithCString r),
    (ODNodeCopyRecord u) as [rec|]; cbn;
    try destruct (ODRecordVerifyPasswordExtended rec [u; c; r]) eqn:E;
    split;
    try (intros H; discriminate H);
    try (intros (H1 & H2 & H3 & H4 & rec' & H5 & H6); try discriminate;
         inversion H5; subst; congruence);
    intros _; repeat split; eauto.
Qed.

End Facts.




(* ------------------------------------------------------------------ *)
(** ** The dialog on concrete sessions *)

Import Demo.

Example decode_empty_authzid : b64_decode "AGJvYgBodW50ZXIy" = Some nul_bob_nul_hunter2.
Proof. reflexivity. Qed.

Example decode_with_authzid :
  b64_decode "YWRtaW4AYm9iAGh1bnRlcjI=" = Some admin_nul_bob_nul_hunter2.
Proof. reflexivity. Qed.

(** PLAIN with the initial response of the spec's example: success, and
    the user name is bob. *)
Example plain_bob :
  let r := smtpd_pw_server_authenticate "PLAIN" (Some "AGJvYgBodW50ZXIy")
                                        (world_of fresh 7 []) in
  fst r = Ret None
  /\ sasl_username (state (snd r)) = Some "bob"
  /\ sasl_method (state (snd r)) = Some "PLAIN"
  /\ trace (snd r) = [Ev_od_clear_text_auth "bob" "hunter2"].
Proof. vm_compute. repeat split. Qed.

(** LOGIN with alice and her password. *)
Example login_alice :
  let r := smtpd_pw_server_authenticate "LOGIN" None
             (world_of fresh 7 ["YWxpY2U="; "c2VjcmV0"]) in
  fst r = Ret None
  /\ sasl_username (state (snd r)) = Some "alice"
  /\ sasl_method (state (snd r)) = Some "LOGIN".
Proof. vm_compute. repeat split. Qed.

(** The generic dialog honours the abort token in its second round. *)
Example generic_abort_second_round :
  let r := smtpd_sasl_authenticate "TWOSTEP" None
             (world_of fresh 7 ["ZGF2ZQ=="; "*"]) in
  fst r = Ret (-1)
  /\ unauthenticated (state (snd r))
  /\ trace (snd r)
     = [ Ev_xsasl_first "TWOSTEP" None; Ev_chat_reply "334 VXNlcm5hbWU6";
         Ev_chat_query "ZGF2ZQ=="; Ev_xsasl_next "ZGF2ZQ==";
         Ev_chat_reply "334 UGFzc3dvcmQ6"; Ev_chat_query "*";
         Ev_msg_warn "client.example.com[192.0.2.1]: SASL TWOSTEP authentication aborted";
         Ev_chat_reply "501 5.7.0 Authentication aborted" ].
Proof. vm_compute. repeat split. Qed.

(** The generic dialog replaces the tab in the plug-in's user name. *)
Example generic_sanitizes :
  let r := smtpd_sasl_authenticate "TWOSTEP" None
             (world_of fresh 7 ["ZGF2ZQ=="; "c2VjcmV0"]) in
  fst r = Ret 0 /\ sasl_username (state (snd r)) = Some "dave?".
Proof. vm_compute. repeat split. Qed.

(** C1, on a session: connect, PLAIN as bob, logout, the generic dialog
    as dave, disconnect.  All five operations complete. *)
Lemma identity_invariant_witness :
  let ops := [ Op_connect "smtpd_sasl_security_options" "noanonymous";
               Op_pw_server_authenticate "PLAIN" (Some "AGJvYgBodW50ZXIy");
               Op_logout;
               Op_authenticate "TWOSTEP" None;
               Op_disconnect ] in
  let w := world_of authenticated 7 ["ZGF2ZQ=="; "c2VjcmV0"] in
  identity_consistent (state w)
  /\ List.length (run_ops ops w) = 5%nat
  /\ Forall (fun w' => identity_consistent (state w')) (run_ops ops w).
Proof.
  split; [reflexivity|]. split; [reflexivity|].
  apply identity_invariant. reflexivity.
Defined.

(** C2 at PLAIN: the client answers the empty 334 challenge with the
    abort token.  The handler treats the token as base64 text, which it
    is not, and replies that the response is malformed; the reply
    "501 Authentication aborted" of LOGIN and CRAM-MD5 is not given. *)
Theorem plain_ignores_abort_token :
  let r := smtpd_pw_server_authenticate "PLAIN" None (world_of fresh 7 ["*"]) in
  fst r = Ret (Some "501 Authentication failed: malformed initial response")
  /\ fst r <> Ret (Some "501 Authentication aborted")
  /\ unauthenticated (state (snd r))
  /\ trace (snd r) = [ Ev_chat_reply "334"; Ev_chat_query "*";
                       Ev_msg_error "Malformed response to: AUTH PLAIN" ].
Proof. vm_compute. repeat split. discriminate. Qed.

(** C3 at a triple with an authorization identity: the directory knows
    bob with the password hunter2, and the one question the handler asks
    it is about the user admin with the password bob.  The look-up of
    admin fails, which the helpers log, nothing is sent to the client,
    and the reply is the 535 one. *)
Theorem plain_authzid_taken_for_user :
  let r := smtpd_pw_server_authenticate "PLAIN" (Some "YWRtaW4AYm9iAGh1bnRlcjI=")
                                        (world_of fresh 7 []) in
  base64_decode "YWRtaW4AYm9iAGh1bnRlcjI=" = Some admin_nul_bob_nul_hunter2
  /\ od_do_clear_text_auth "bob" "hunter2" = Some eAOD_no_error
  /\ filter is_backend (trace (snd r)) = [Ev_od_clear_text_auth "admin" "bob"]
  /\ filter is_transport (trace (snd r)) = []
  /\ Forall (fun e => is_backend e = true \/ is_log e = true) (trace (snd r))
  /\ fst r = Ret (Some "535 Error: authentication failed")
  /\ unauthenticated (state (snd r)).
Proof.
  vm_compute.
  do 4 (split; [reflexivity|]).
  split; [|repeat split].
  repeat (apply Forall_cons; [first [left; reflexivity | right; reflexivity]|]).
  apply Forall_nil.
Qed.



(** C5, as the claim has it, fails on a session that is authenticated:
    no reply comes back, the 504 ones included; the process panics. *)
Lemma reauthentication_is_no_reply :
  let r := smtpd_pw_server_authenticate "LOGIN" None
             (world_of authenticated 7 ["YWxpY2U="; "c2VjcmV0"]) in
  fst r <> Ret (Some "504 Authentication method not enabled")
  /\ fst r <> Ret (Some "504 Unsupported authentication method")
  /\ fst r = Abend (Panic "smtpd_pw_server_authenticate: already authenticated").
Proof. vm_compute. repeat split; discriminate. Qed.

Lemma already_authenticated_panics_witness :
  let w := world_of authenticated 7 ["YWxpY2U="; "c2VjcmV0"] in
  (sasl_username (state w) <> None \/ sasl_method (state w) <> None)
  /\ smtpd_pw_server_authenticate "LOGIN" None w
     = (Abend (Panic "smtpd_pw_server_authenticate: already authenticated"), w).
Proof.
  intros w.
  assert (H : sasl_username (state w) <> None \/ sasl_method (state w) <> None)
    by (left; discriminate).
  split; [exact H|]. apply (already_authenticated_panics w "LOGIN" None H).
Defined.

(** C6 on a process that enables PLAIN and CRAM-MD5 but not LOGIN. *)
Lemma disabled_mechanism_no_transport_witness :
  let w := world_of fresh 6 ["YWxpY2U="; "c2VjcmV0"] in
  Z.land (smtpd_pw_server_sasl_opts w) (mechanism_bit Login) = 0
  /\ fst (handler Login "LOGIN" None w) = Ret (Some "504 Authentication method not enabled")
  /\ input (snd (handler Login "LOGIN" None w)) = ["YWxpY2U="; "c2VjcmV0"].
Proof.
  intros w.
  assert (H : Z.land (smtpd_pw_server_sasl_opts w) (mechanism_bit Login) = 0)
    by reflexivity.
  destruct (disabled_mechanism_no_transport Login w "LOGIN" None H) as [Hr [_ [Hi _]]].
  split; [exact H|]. split; [exact Hr|exact Hi].
Defined.

(** C7 on a process that starts with the password server in use. *)
Lemma repeated_initialize_is_fatal_witness :
  let w0 := mkWorld fresh None 0 [] [] in
  let w1 := mkWorld fresh (Some tt) 1 [] [] in
  smtpd_sasl_initialize 1 w0 = (Ret tt, w1)
  /\ ConfigurationFatal (fst (smtpd_sasl_initialize 0 w1)).
Proof.
  intros w0 w1.
  assert (H : smtpd_sasl_initialize 1 w0 = (Ret tt, w1)) by reflexivity.
  split; [exact H|]. apply (repeated_initialize_is_fatal 1 0 w0 w1 H).
Defined.

(** C8 at LOGIN: the directory has an account with a letter outside
    ASCII in its name; the name is stored as the client sent it. *)
Theorem login_stores_unsanitized_name :
  let r := smtpd_pw_server_authenticate "LOGIN" None
             (world_of fresh 7 ["am9zw6k="; "cHc="]) in
  base64_decode "am9zw6k=" = Some jose
  /\ fst r = Ret None
  /\ sasl_username (state (snd r)) = Some jose
  /\ string_forallb isprint jose = false
  /\ printable jose "?" = "jos??".
Proof. vm_compute. repeat split. Qed.

(** C10 on a method name in lower case. *)
Lemma mechanism_selection_ignores_case_witness :
  let w := world_of fresh 7 ["Y2Fyb2w="] in
  unauthenticated (state w)
  /\ eq_nocase "cram-md5" "CRAM-MD5"
  /\ smtpd_pw_server_authenticate "cram-md5" None w = do_auth_cram_md5 "cram-md5" w.
Proof.
  intros w.
  assert (H : unauthenticated (state w)) by (split; reflexivity).
  destruct (mechanism_selection_ignores_case w "cram-md5" None H) as [_ [_ [Hc _]]].
  split; [exact H|]. split; [reflexivity|]. apply Hc. reflexivity.
Defined.

(* ------------------------------------------------------------------ *)
(** ** The further facts on concrete sessions *)

(** LOGIN as alice; the line behind her password stays unread. *)
Lemma do_auth_login_verdict_witness :
  let l1 := "YWxpY2U=" in
  let l2 := "c2VjcmV0" in
  let w := world_of fresh 7 [l1; l2; "MAIL FROM:<alice@example.com>"] in
  Z.land (smtpd_pw_server_sasl_opts w) PW_SERVER_LOGIN <> 0
  /\ STR l1 <> "*" /\ base64_decode l1 = Some "alice"
  /\ STR l2 <> "*" /\ base64_decode l2 = Some "secret"
  /\ fst (do_auth_login "LOGIN" w) = Ret None
  /\ input (snd (do_auth_login "LOGIN" w)) = ["MAIL FROM:<alice@example.com>"].
Proof.
  intros l1 l2 w.
  assert (He : Z.land (smtpd_pw_server_sasl_opts w) PW_SERVER_LOGIN <> 0)
    by (vm_compute; discriminate).
  assert (H1 : STR l1 <> "*") by (vm_compute; discriminate).
  assert (H2 : STR l2 <> "*") by (vm_compute; discriminate).
  assert (Hd1 : base64_decode l1 = Some "alice") by reflexivity.
  assert (Hd2 : base64_decode l2 = Some "secret") by reflexivity.
  pose proof (do_auth_login_verdict w "LOGIN" l1 l2 _ "alice" "secret"
                He eq_refl H1 Hd1 H2 Hd2) as H.
  cbv zeta in H. destruct H as [Hi H].
  change (returned (od_do_clear_text_auth (STR "alice") (STR "secret")))
    with eAOD_no_error in H.
  cbv iota in H. destruct H as [Hf _].
  repeat (split; [assumption|]). exact Hi.
Defined.

(** LOGIN with a user name line that is no base64 text. *)
Lemma do_auth_login_malformed_witness :
  let w := world_of fresh 7 ["!!!!"; "c2VjcmV0"] in
  Z.land (smtpd_pw_server_sasl_opts w) PW_SERVER_LOGIN <> 0
  /\ STR "!!!!" <> "*" /\ base64_decode "!!!!" = None
  /\ fst (do_auth_login "LOGIN" w)
     = Ret (Some "501 Authentication failed: malformed initial response")
  /\ input (snd (do_auth_login "LOGIN" w)) = ["c2VjcmV0"].
Proof.
  intros w.
  assert (He : Z.land (smtpd_pw_server_sasl_opts w) PW_SERVER_LOGIN <> 0)
    by (vm_compute; discriminate).
  assert (H1 : STR "!!!!" <> "*") by (vm_compute; discriminate).
  assert (Hd : base64_decode "!!!!" = None) by reflexivity.
  destruct (do_auth_login_malformed w "LOGIN" "!!!!" ["c2VjcmV0"] He eq_refl H1)
    as [H _].
  specialize (H Hd).
  repeat (split; [assumption|]). now rewrite H.
Defined.

(** LOGIN, aborted at the password prompt. *)
Lemma do_auth_login_abort_witness :
  let w := world_of fresh 7 ["YWxpY2U="; "*"] in
  Z.land (smtpd_pw_server_sasl_opts w) PW_SERVER_LOGIN <> 0
  /\ fst (do_auth_login "LOGIN" w) = Ret (Some "501 Authentication aborted")
  /\ keeps_identity w (snd (do_auth_login "LOGIN" w)).
Proof.
  intros w.
  assert (He : Z.land (smtpd_pw_server_sasl_opts w) PW_SERVER_LOGIN <> 0)
    by (vm_compute; discriminate).
  assert (Hc : STR "YWxpY2U=" = "*" \/
               (exists vs_user l2 rest',
                   STR "YWxpY2U=" <> "*" /\ base64_decode "YWxpY2U=" = Some vs_user
                   /\ ["*"] = l2 :: rest' /\ STR l2 = "*")).
  { right. exists "alice", "*", []. repeat split. vm_compute. discriminate. }
  destruct (do_auth_login_abort w "LOGIN" "YWxpY2U=" ["*"] He eq_refl Hc) as [Hf [Hk _]].
  split; [exact He|]. split; [exact Hf|exact Hk].
Defined.

(** PLAIN with the initial response Ym9i, which decodes to bob: the
    directory is asked about bob and the password "sesame", which is what
    lies behind the decoded data here. *)
Lemma do_auth_plain_without_separator_witness :
  let w := world_of fresh 7 [] in
  Z.land (smtpd_pw_server_sasl_opts w) PW_SERVER_PLAIN <> 0
  /\ base64_decode (STR "Ym9i") = Some "bob"
  /\ nul_free "bob" = true
  /\ "bob" <> ""
  /\ filter is_backend (trace (snd (do_auth_plain "PLAIN" (Some "Ym9i") w)))
     = [Ev_od_clear_text_auth "bob" "sesame"]
  /\ fst (do_auth_plain "PLAIN" (Some "Ym9i") w)
     = Ret (Some "535 Error: authentication failed").
Proof.
  intros w.
  assert (He : Z.land (smtpd_pw_server_sasl_opts w) PW_SERVER_PLAIN <> 0)
    by (vm_compute; discriminate).
  assert (Hd : base64_decode (STR "Ym9i") = Some "bob") by reflexivity.
  assert (Hn : nul_free "bob" = true) by reflexivity.
  assert (Hne : "bob" <> "") by discriminate.
  destruct (do_auth_plain_without_separator w "PLAIN" "Ym9i" "bob" He Hd Hn Hne)
    as [Ht Hf].
  split; [exact He|]. split; [exact Hd|]. split; [exact Hn|]. split; [exact Hne|].
  split; [now rewrite Ht|exact Hf].
Defined.


(** PLAIN as bob, then LOGIN in the same session. *)
Lemma pw_server_second_success_impossible_witness :
  let w := world_of fresh 7 ["YWxpY2U="; "c2VjcmV0"] in
  let w' := snd (smtpd_pw_server_authenticate "PLAIN" (Some "AGJvYgBodW50ZXIy") w) in
  smtpd_pw_server_authenticate "PLAIN" (Some "AGJvYgBodW50ZXIy") w = (Ret None, w')
  /\ smtpd_pw_server_authenticate "LOGIN" None w'
     = (Abend (Panic "smtpd_pw_server_authenticate: already authenticated"), w').
Proof.
  intros w w'.
  assert (H : smtpd_pw_server_authenticate "PLAIN" (Some "AGJvYgBodW50ZXIy") w
              = (Ret None, w')) by reflexivity.
  split; [exact H|].
  exact (pw_server_second_success_impossible w w' "PLAIN" "LOGIN" _ None H).
Defined.

(** Connect on a used session record, then disconnect. *)
Lemma connect_then_disconnect_witness :
  let w := world_of authenticated 7 [] in
  let w1 := snd (smtpd_sasl_connect "smtpd_sasl_security_options" "noanonymous" w) in
  smtpd_sasl_connect "smtpd_sasl_security_options" "noanonymous" w = (Ret tt, w1)
  /\ new_events w1 (snd (smtpd_sasl_disconnect w1))
     = [Ev_free R_sasl_reply; Ev_free R_sasl_mechanism_list; Ev_free R_sasl_server].
Proof.
  intros w w1.
  assert (H : smtpd_sasl_connect "smtpd_sasl_security_options" "noanonymous" w
              = (Ret tt, w1)) by reflexivity.
  split; [exact H|].
  exact (proj2 (proj2 (connect_then_disconnect w w1 _ _ H))).
Defined.

(** The abort token in the second round of the two-round plug-in. *)
Lemma generic_abort_in_any_round_witness :
  let w := mkWorld (set_sasl_server (Some 2%nat) fresh) (Some tt) 7 ["*"; "QUIT"] [] in
  STR "*" = "*"
  /\ fst (xsasl_loop "TWOSTEP" ["*"; "QUIT"] XSASL_AUTH_MORE w) = Ret (Returned (-1))
  /\ input (snd (xsasl_loop "TWOSTEP" ["*"; "QUIT"] XSASL_AUTH_MORE w)) = ["QUIT"].
Proof.
  intros w.
  destruct (generic_abort_in_any_round w "TWOSTEP" "*" ["QUIT"] eq_refl) as [Hf [Hi _]].
  split; [reflexivity|]. split; [exact Hf|exact Hi].
Defined.

(** The one-step plug-in accepts an initial response at once. *)
Lemma generic_first_answer_final_witness :
  let w := OneStep.connected in
  let res := @smtpd_sasl_authenticate OneStep.collaborators "ONESTEP" (Some "ZGF2ZQ==") w in
  @xsasl_server_first OneStep.collaborators 0%nat "ONESTEP" (Some "ZGF2ZQ==")
  = (XSASL_AUTH_DONE, "", 1%nat)
  /\ XSASL_AUTH_DONE <> XSASL_AUTH_MORE
  /\ fst res = Ret 0
  /\ input (snd res) = ["MAIL FROM:<dave@example.com>"]
  /\ sasl_username (state (snd res)) = Some "dave".
Proof.
  intros w res.
  assert (Hf : @xsasl_server_first OneStep.collaborators 0%nat "ONESTEP" (Some "ZGF2ZQ==")
               = (XSASL_AUTH_DONE, "", 1%nat)) by reflexivity.
  assert (Hs : XSASL_AUTH_DONE <> XSASL_AUTH_MORE) by discriminate.
  pose proof (@generic_first_answer_final OneStep.collaborators w "ONESTEP"
                (Some "ZGF2ZQ==") 0%nat 1%nat "" "" XSASL_AUTH_DONE
                eq_refl eq_refl Hf Hs) as H.
  cbv zeta in H. destruct H as [Hi [_ H]].
  change (@xsasl_server_get_username OneStep.collaborators 1%nat)
    with (Some "dave") in H.
  cbv iota in H. destruct H as [Hr [_ [Hu _]]].
  split; [exact Hf|]. split; [exact Hs|]. split; [exact Hr|].
  split; [exact Hi|exact Hu].
Defined.

(** PLAIN answered after the bare 334 with bob's token. *)
Lemma do_auth_plain_challenge_path_witness :
  let l := "AGJvYgBodW50ZXIy" in
  let w := world_of fresh 7 [l] in
  Z.land (smtpd_pw_server_sasl_opts w) PW_SERVER_PLAIN <> 0
  /\ nul_free l = true
  /\ do_auth_plain "PLAIN" None w
     = do_auth_plain "PLAIN" (Some l)
         (after_line w l [] [Ev_chat_reply "334"; Ev_chat_query l])
  /\ fst (do_auth_plain "PLAIN" None w) = Ret None.
Proof.
  intros l w.
  assert (He : Z.land (smtpd_pw_server_sasl_opts w) PW_SERVER_PLAIN <> 0)
    by (vm_compute; discriminate).
  assert (Hn : nul_free l = true) by reflexivity.
  split; [exact He|]. split; [exact Hn|].
  split; [exact (do_auth_plain_challenge_path w "PLAIN" l [] He eq_refl Hn)|].
  reflexivity.
Defined.

(** PLAIN with the token of the spec's example. *)
Lemma do_auth_plain_empty_authzid_witness :
  let tok := "AGJvYgBodW50ZXIy" in
  let w := world_of fresh 7 [] in
  Z.land (smtpd_pw_server_sasl_opts w) PW_SERVER_PLAIN <> 0
  /\ base64_decode (STR tok) = Some (String NUL ("bob" ++ String NUL "hunter2"))
  /\ nul_free "bob" = true
  /\ trace (snd (do_auth_plain "PLAIN" (Some tok) w))
     = [Ev_od_clear_text_auth "bob" "hunter2"]
  /\ sasl_username (state (snd (do_auth_plain "PLAIN" (Some tok) w))) = Some "bob".
Proof.
  intros tok w.
  assert (He : Z.land (smtpd_pw_server_sasl_opts w) PW_SERVER_PLAIN <> 0)
    by (vm_compute; discriminate).
  assert (Hd : base64_decode (STR tok) = Some (String NUL ("bob" ++ String NUL "hunter2")))
    by reflexivity.
  assert (Hn : nul_free "bob" = true) by reflexivity.
  destruct (do_auth_plain_empty_authzid "PLAIN" tok w "bob" "hunter2" He Hd Hn)
    as [Ht [Hf Hu]].
  split; [exact He|]. split; [exact Hd|]. split; [exact Hn|].
  split; [exact Ht|]. apply Hu. rewrite Hf. reflexivity.
Defined.
